(** * cmd/run.go: the [run] sub-command of the Rosetta server

    A shallow embedding of [runRunCmd] and [getSupportedTokens].

    [getSupportedTokens] is a pure function and is embedded as one.

    [runRunCmd] starts goroutines (the signal watcher and the tasks of an
    [errgroup.Group]) and then blocks in [g.Wait()].  It is embedded as a
    transition system: the state holds the program counter of the main
    goroutine, the status of every task, the two contexts, the group's
    first error, the global [SignalReceived] and the deferred calls; a
    label says which goroutine moves next.  A run is a list of labels. *)

From stdpp Require Import gmap strings pretty list fin_maps.
From Stdlib Require Import ZArith Lia.

Open Scope Z_scope.

(** ** Errors *)

(** Go's [error] values.  [New msg] is [errors.New(msg)] (and the
    sentinel errors of the libraries, which are made the same way);
    [Wrap e msg] is [fmt.Errorf("%w: msg", e)].  A nil error is [None]. *)
Inductive error : Type :=
| New (msg : string)
| Wrap (inner : error) (msg : string).

Inductive result (A : Type) : Type :=
| Ok (a : A)
| Err (e : error).
Arguments Ok {A} a.
Arguments Err {A} e.

(** [http.ErrServerClosed] and [context.Canceled]. *)
Definition ErrServerClosed : error := New "http: Server closed".
Definition Canceled : error := New "context canceled".

(** ** time.Duration: a count of nanoseconds *)

Definition Duration : Type := Z.
Definition Second : Duration := 1000000000.

Definition readTimeout : Duration := 5 * Second.
Definition idleTimeout : Duration := 30 * Second.

(** ** The token table *)

Definition OP : string := "0x4200000000000000000000000000000000000042".

Section Tokens.

(** [optimism.MainnetNetwork] and [optimism.TestnetNetwork] are constants
    of the [optimism] package. *)
Variable MainnetNetwork : string.
Variable TestnetNetwork : string.

Definition getSupportedTokens (network : string) : gmap string bool :=
  if decide (network = MainnetNetwork) then
    <["0x4200000000000000000000000000000000000042" := true]> (* OP *)
    (<["0xda10009cbd5d07dd0cecc66161fc93d7c9000da1" := true]> (* DAI *)
    (<["0x8700daec35af8ff88c16bdf0418774cb3d7599b4" := true]> (* SNX *)
    (<["0x94b008aa00579c1307b0ef2c499ad98a8ce58e58" := true]> (* USDT *)
    (<["0x68f180fcce6836688e9084f035309e29bf0a2095" := true]> (* WBTC *)
    (<["0x7f5c764cbc14f9669b88837ca1490cca17c31607" := true]> (* USDC *)
     ∅)))))
  else if decide (network = TestnetNetwork) then (* Goerli - 420 *)
    <["0x4200000000000000000000000000000000000042" := true]> (* OP *)
    (<["0xda10009cbd5d07dd0cecc66161fc93d7c9000da1" := true]> (* DAI *)
    (<["0x2e5ed97596a8368eb9e44b1f3f25b2e813845303" := true]> (* SNX *)
    (<["0x853eb4ba5d0ba2b77a0a5329fd2110d5ce149ece" := true]> (* USDT *)
    (<["0xe0a592353e81a94db6e3226fd4a99f881751776a" := true]> (* WBTC *)
    (<["0x7e07e15d2a87a24492740d16f5bdf58c16db0c4e" := true]> (* USDC *)
     ∅)))))
  else
    <["0x4200000000000000000000000000000000000042" := true]> (* OP *) ∅.

End Tokens.

(** ** Configuration, options and the HTTP server value *)

Inductive mode : Type := Online | Offline.

Record NetworkIdentifier : Type := {
  Blockchain : string;
  Network : string;
}.

(** [params.ChainConfig] is opaque to [run.go]; it is only passed on. *)
Inductive ChainConfig : Type := chainConfig (ChainID : Z).

(** The fields of [configuration.Configuration] that [run.go] reads. *)
Record Configuration : Type := {
  Mode : mode;
  cNetwork : NetworkIdentifier;
  Port : Z;
  RemoteGeth : bool;
  GethArguments : string;
  GethURL : string;
  Params : ChainConfig;
  L2GethHTTPTimeout : Duration;
  MaxConcurrentTraces : Z;
  cEnableTraceCache : bool;
  cEnableGethTracer : bool;
}.

Record ClientOptions : Type := {
  HTTPTimeout : Duration;
  MaxTraceConcurrency : Z;
  EnableTraceCache : bool;
  EnableGethTracer : bool;
  SupportedTokens : gmap string bool;
}.

(** [http.Server] as built at lines 108-114 (the handler is the router
    and plays no part here). *)
Record Server : Type := {
  Addr : string;
  ReadTimeout : Duration;
  WriteTimeout : Duration;
  IdleTimeout : Duration;
}.

(** ** The collaborators called by the main goroutine *)

(** What the constructors outside [run.go] answer in one run.  Each is
    called at most once, so a world fixes one answer per call. *)
Record World : Type := {
  LoadConfiguration : result Configuration;
  (* asserter.NewServer: only its error is inspected *)
  NewServer : list NetworkIdentifier → option error;
  (* optimism.NewClient(cfg.GethURL, cfg.Params, opts): nil error = a client *)
  NewClient : string → ChainConfig → ClientOptions → option error;
}.

(** ** Goroutines and the state of a run *)

(** The three closures handed to [g.Go]. *)
Inductive task : Type :=
| GethTask      (* lines 84-86: optimism.StartGeth(ctx, cfg.GethArguments, g) *)
| ServeTask     (* lines 116-119: server.ListenAndServe() *)
| ShutdownTask. (* lines 121-128: <-ctx.Done(); server.Shutdown(ctx) *)

Inductive status : Type :=
| NotStarted
| Running
| Returned (r : option error).

(** The goroutine of [handleSignals]. *)
Inductive watcher_status : Type :=
| NoWatcher   (* not started yet *)
| Watching    (* waiting for SIGINT/SIGTERM *)
| Handled.    (* the first signal was handled *)

(** Where the main goroutine stands; the names are the line numbers of
    the statement it executes next. *)
Inductive pc : Type :=
| L55   (* cfg, err := configuration.LoadConfiguration() *)
| L62   (* asserter, err := asserter.NewServer(...) *)
| L75   (* ctx, cancel := context.WithCancel(ctx); go handleSignals(...) *)
| L79   (* g, ctx := errgroup.WithContext(ctx) *)
| L82   (* if cfg.Mode == Online { if !cfg.RemoteGeth { g.Go(...) } *)
| L89   (* opts; client, err = optimism.NewClient(...); defer client.Close() *)
| L104  (* router, middlewares, server := &http.Server{...} *)
| L116  (* g.Go(serve) *)
| L121  (* g.Go(shutdown) *)
| L130  (* err = g.Wait() *)
| L131  (* if SignalReceived { return halted }; return err *)
| Exited.

Inductive deferred_call : Type :=
| CloseClient.  (* defer client.Close() *)

Inductive event : Type :=
| EvGoHandleSignals
| EvGo (t : task)
| EvNewClient (url : string) (params : ChainConfig) (opts : ClientOptions)
| EvClose                       (* client.Close() *)
| EvShutdown (ctx_done : bool)   (* server.Shutdown(ctx), with ctx.Done() closed or not *)
| EvWait (r : option error).     (* g.Wait() returned r *)

Record state : Type := mkState {
  at_ : pc;
  (* locals of runRunCmd *)
  cfg : option Configuration;
  err : option error;
  server : option Server;
  client : bool;                  (* client != nil *)
  deferred : list deferred_call;  (* most recent first *)
  (* the package variable set by the signal handler *)
  SignalReceived : bool;
  watcher : watcher_status;
  (* ctx of context.WithCancel and the ctx derived by errgroup *)
  rootCancelled : bool;
  groupCancelled : bool;
  (* the errgroup: g.err and its goroutines *)
  gerr : option error;
  geth : status;
  serve : status;
  shutdown : status;
  (* http.Server: Shutdown has been called *)
  inShutdown : bool;
  (* what was called, oldest first *)
  trace : list event;
  (* the value runRunCmd returned *)
  returned : option (option error);
}.

Definition init : state :=
  mkState L55 None None None false [] false NoWatcher false false
          None NotStarted NotStarted NotStarted false [] None.

Definition set_at (v : pc) (s : state) : state :=
  mkState v (cfg s) (err s) (server s) (client s) (deferred s) (SignalReceived s) (watcher s) (rootCancelled s) (groupCancelled s) (gerr s) (geth s) (serve s) (shutdown s) (inShutdown s) (trace s) (returned s).
Definition set_cfg (v : option Configuration) (s : state) : state :=
  mkState (at_ s) v (err s) (server s) (client s) (deferred s) (SignalReceived s) (watcher s) (rootCancelled s) (groupCancelled s) (gerr s) (geth s) (serve s) (shutdown s) (inShutdown s) (trace s) (returned s).
Definition set_err (v : option error) (s : state) : state :=
  mkState (at_ s) (cfg s) v (server s) (client s) (deferred s) (SignalReceived s) (watcher s) (rootCancelled s) (groupCancelled s) (gerr s) (geth s) (serve s) (shutdown s) (inShutdown s) (trace s) (returned s).
Definition set_server (v : option Server) (s : state) : state :=
  mkState (at_ s) (cfg s) (err s) v (client s) (deferred s) (SignalReceived s) (watcher s) (rootCancelled s) (groupCancelled s) (gerr s) (geth s) (serve s) (shutdown s) (inShutdown s) (trace s) (returned s).
Definition set_client (v : bool) (s : state) : state :=
  mkState (at_ s) (cfg s) (err s) (server s) v (deferred s) (SignalReceived s) (watcher s) (rootCancelled s) (groupCancelled s) (gerr s) (geth s) (serve s) (shutdown s) (inShutdown s) (trace s) (returned s).
Definition set_deferred (v : list deferred_call) (s : state) : state :=
  mkState (at_ s) (cfg s) (err s) (server s) (client s) v (SignalReceived s) (watcher s) (rootCancelled s) (groupCancelled s) (gerr s) (geth s) (serve s) (shutdown s) (inShutdown s) (trace s) (returned s).
Definition set_SignalReceived (v : bool) (s : state) : state :=
  mkState (at_ s) (cfg s) (err s) (server s) (client s) (deferred s) v (watcher s) (rootCancelled s) (groupCancelled s) (gerr s) (geth s) (serve s) (shutdown s) (inShutdown s) (trace s) (returned s).
Definition set_watcher (v : watcher_status) (s : state) : state :=
  mkState (at_ s) (cfg s) (err s) (server s) (client s) (deferred s) (SignalReceived s) v (rootCancelled s) (groupCancelled s) (gerr s) (geth s) (serve s) (shutdown s) (inShutdown s) (trace s) (returned s).
Definition set_rootCancelled (v : bool) (s : state) : state :=
  mkState (at_ s) (cfg s) (err s) (server s) (client s) (deferred s) (SignalReceived s) (watcher s) v (groupCancelled s) (gerr s) (geth s) (serve s) (shutdown s) (inShutdown s) (trace s) (returned s).
Definition set_groupCancelled (v : bool) (s : state) : state :=
  mkState (at_ s) (cfg s) (err s) (server s) (client s) (deferred s) (SignalReceived s) (watcher s) (rootCancelled s) v (gerr s) (geth s) (serve s) (shutdown s) (inShutdown s) (trace s) (returned s).
Definition set_gerr (v : option error) (s : state) : state :=
  mkState (at_ s) (cfg s) (err s) (server s) (client s) (deferred s) (SignalReceived s) (watcher s) (rootCancelled s) (groupCancelled s) v (geth s) (serve s) (shutdown s) (inShutdown s) (trace s) (returned s).
Definition set_geth (v : status) (s : state) : state :=
  mkState (at_ s) (cfg s) (err s) (server s) (client s) (deferred s) (SignalReceived s) (watcher s) (rootCancelled s) (groupCancelled s) (gerr s) v (serve s) (shutdown s) (inShutdown s) (trace s) (returned s).
Definition set_serve (v : status) (s : state) : state :=
  mkState (at_ s) (cfg s) (err s) (server s) (client s) (deferred s) (SignalReceived s) (watcher s) (rootCancelled s) (groupCancelled s) (gerr s) (geth s) v (shutdown s) (inShutdown s) (trace s) (returned s).
Definition set_shutdown (v : status) (s : state) : state :=
  mkState (at_ s) (cfg s) (err s) (server s) (client s) (deferred s) (SignalReceived s) (watcher s) (rootCancelled s) (groupCancelled s) (gerr s) (geth s) (serve s) v (inShutdown s) (trace s) (returned s).
Definition set_inShutdown (v : bool) (s : state) : state :=
  mkState (at_ s) (cfg s) (err s) (server s) (client s) (deferred s) (SignalReceived s) (watcher s) (rootCancelled s) (groupCancelled s) (gerr s) (geth s) (serve s) (shutdown s) v (trace s) (returned s).
Definition set_returned (v : option (option error)) (s : state) : state :=
  mkState (at_ s) (cfg s) (err s) (server s) (client s) (deferred s) (SignalReceived s) (watcher s) (rootCancelled s) (groupCancelled s) (gerr s) (geth s) (serve s) (shutdown s) (inShutdown s) (trace s) v.
Definition emit (e : event) (s : state) : state :=
  mkState (at_ s) (cfg s) (err s) (server s) (client s) (deferred s) (SignalReceived s) (watcher s) (rootCancelled s) (groupCancelled s) (gerr s) (geth s) (serve s) (shutdown s) (inShutdown s) (trace s ++ [e]) (returned s).

Definition set_status (t : task) (v : status) (s : state) : state :=
  match t with
  | GethTask => set_geth v s
  | ServeTask => set_serve v s
  | ShutdownTask => set_shutdown v s
  end.

(** ** context, errgroup, defer *)

(** [ctx.Done()] of the group's context is closed: the context derived
    by [errgroup.WithContext] is cancelled by its own cancel function or
    through its parent, the context of [context.WithCancel]. *)
Definition ctx_Done (s : state) : bool := rootCancelled s || groupCancelled s.

(** [g.Go(f)]: the goroutine of [f] starts at once. *)
Definition Go (t : task) (s : state) : state :=
  emit (EvGo t) (set_status t Running s).

(** The goroutine of [g.Go(f)] once [f] has returned [r]: the first
    non-nil error is kept in [g.err] and cancels the group's context. *)
Definition task_returns (t : task) (r : option error) (s : state) : state :=
  let s' := set_status t (Returned r) s in
  match r, gerr s' with
  | Some e, None => set_groupCancelled true (set_gerr (Some e) s')
  | _, _ => s'
  end.

Definition finished (st : status) : bool :=
  match st with
  | Running => false
  | NotStarted | Returned _ => true
  end.

(** No goroutine of the group is running. *)
Definition all_finished (s : state) : bool :=
  finished (geth s) && finished (serve s) && finished (shutdown s).

(** [err = g.Wait()]: blocked ([None]) while a goroutine of the group
    is running; then it cancels the group's context and yields [g.err]. *)
Definition Wait (s : state) : option state :=
  if all_finished s
  then Some (emit (EvWait (gerr s)) (set_err (gerr s) (set_groupCancelled true s)))
  else None.

(** How many times [client.Close()] was called. *)
Fixpoint closes (tr : list event) : nat :=
  match tr with
  | [] => 0%nat
  | EvClose :: tr' => S (closes tr')
  | _ :: tr' => closes tr'
  end.

(** What [g.Wait()] returned, if it has returned. *)
Fixpoint joined (tr : list event) : option (option error) :=
  match tr with
  | [] => None
  | EvWait r :: _ => Some r
  | _ :: tr' => joined tr'
  end.

Definition run_deferred (s : state) (d : deferred_call) : state :=
  match d with
  | CloseClient => emit EvClose s
  end.

(** [return r]: the deferred calls run, last deferred first, and the
    function returns [r]. *)
Definition return_ (r : option error) (s : state) : state :=
  set_at Exited
    (set_returned (Some r)
       (set_deferred [] (fold_left run_deferred (deferred s) s))).

(** Modelled from the spec: [handleSignals] is defined in another file of
    the package.  The watcher blocks until an OS termination signal
    arrives, then sets the process-wide [SignalReceived] and invokes the
    supplied cancellation callbacks (here the one [cancel]) once; a
    later signal has no further effect.  Before the watcher is started
    no signal is handled by this program. *)
Definition handleSignals (s : state) : option state :=
  match watcher s with
  | NoWatcher => None
  | Watching =>
      Some (set_watcher Handled
              (set_rootCancelled true (set_SignalReceived true s)))
  | Handled => Some s
  end.

(** Modelled from the spec: [optimism.StartGeth] is in another package of
    the repository.  The embedded node is "started as one task" that
    "owns a child process lifecycle": the goroutine of lines 84-86 runs
    until [StartGeth] returns some [r], at any time, and hands [r] to
    the group.  [StartGeth] also receives the group [g]; tasks it might
    register through [g] are not part of this model, in which the group
    has the three tasks that [run.go] registers. *)
Definition StartGeth (r : option error) (s : state) : option state :=
  match geth s with
  | Running => Some (task_returns GethTask r s)
  | _ => None
  end.

(** ** The transition system *)

(** Who moves next.  The results of the calls into [optimism.StartGeth]
    and [net/http] are chosen by the label: [StartGeth] may return
    anything at any time; [ListenAndServe] fails with an error of its
    own or, once [Shutdown] was called, returns [http.ErrServerClosed]
    (it never returns nil); [Shutdown] returns the error of closing the
    listeners or [ctx.Err()]. *)
Inductive label : Type :=
| Main                               (* the next statement of runRunCmd *)
| Signal                             (* SIGINT or SIGTERM is delivered *)
| GethReturns (r : option error)     (* StartGeth returns r *)
| ServeFails (e : error)             (* ListenAndServe fails with e *)
| ServeClosed                        (* ListenAndServe returns ErrServerClosed *)
| CtxDone                            (* <-ctx.Done() is passed; Shutdown(ctx) is entered *)
| ShutdownReturns (r : option error). (* server.Shutdown(ctx) returns r *)

Section Run.

Variable MainnetNetwork : string.
Variable TestnetNetwork : string.

Definition halted : error := New "rosetta-ethereum halted".

Definition mkServer (c : Configuration) : Server :=
  {| Addr := ":" +:+ pretty (Port c);
     ReadTimeout := readTimeout;
     WriteTimeout := L2GethHTTPTimeout c;
     IdleTimeout := idleTimeout |}.

Definition mkOpts (c : Configuration) : ClientOptions :=
  {| HTTPTimeout := L2GethHTTPTimeout c;
     MaxTraceConcurrency := MaxConcurrentTraces c;
     EnableTraceCache := cEnableTraceCache c;
     EnableGethTracer := cEnableGethTracer c;
     SupportedTokens :=
       getSupportedTokens MainnetNetwork TestnetNetwork (Network (cNetwork c)) |}.

(** One statement of the main goroutine. *)
Definition runRunCmd (w : World) (s : state) : option state :=
  match at_ s with
  | L55 =>
      match LoadConfiguration w with
      | Err e => Some (return_ (Some (Wrap e "unable to load configuration")) s)
      | Ok c => Some (set_at L62 (set_cfg (Some c) s))
      end
  | L62 =>
      c ← cfg s;
      match NewServer w [cNetwork c] with
      | Some e => Some (return_ (Some (Wrap e "could not initialize server asserter")) s)
      | None => Some (set_at L75 s)
      end
  | L75 =>
      Some (set_at L79 (emit EvGoHandleSignals (set_watcher Watching s)))
  | L79 =>
      Some (set_at L82 s)
  | L82 =>
      c ← cfg s;
      match Mode c with
      | Online =>
          if negb (RemoteGeth c)
          then Some (set_at L89 (Go GethTask s))
          else Some (set_at L89 s)
      | Offline => Some (set_at L104 s)
      end
  | L89 =>
      c ← cfg s;
      let opts := mkOpts c in
      let s := emit (EvNewClient (GethURL c) (Params c) opts) s in
      match NewClient w (GethURL c) (Params c) opts with
      | Some e => Some (return_ (Some (Wrap e "cannot initialize ethereum client")) s)
      | None =>
          Some (set_at L104
                  (set_deferred (CloseClient :: deferred s) (set_client true s)))
      end
  | L104 =>
      c ← cfg s;
      Some (set_at L116 (set_server (Some (mkServer c)) s))
  | L116 =>
      Some (set_at L121 (Go ServeTask s))
  | L121 =>
      Some (set_at L130 (Go ShutdownTask s))
  | L130 =>
      s' ← Wait s;
      Some (set_at L131 s')
  | L131 =>
      if SignalReceived s
      then Some (return_ (Some halted) s)
      else Some (return_ (err s) s)
  | Exited => None
  end.

(** What the goroutine named by the label does, if it can move. *)
Definition move (w : World) (s : state) (l : label) : option state :=
  match l with
  | Main => runRunCmd w s
  | Signal => handleSignals s
  | GethReturns r => StartGeth r s
  | ServeFails e =>
      match serve s with
      | Running => Some (task_returns ServeTask (Some e) s)
      | _ => None
      end
  | ServeClosed =>
      match serve s with
      | Running =>
          if inShutdown s
          then Some (task_returns ServeTask (Some ErrServerClosed) s)
          else None
      | _ => None
      end
  | CtxDone =>
      match shutdown s with
      | Running =>
          if ctx_Done s && negb (inShutdown s)
          then Some (emit (EvShutdown (ctx_Done s)) (set_inShutdown true s))
          else None
      | _ => None
      end
  | ShutdownReturns r =>
      match shutdown s with
      | Running =>
          if inShutdown s
          then Some (task_returns ShutdownTask r s)
          else None
      | _ => None
      end
  end.

(** One step of the program.  [None]: the label cannot move in [s]
    (the goroutine is blocked, has not started or is over).  Nothing
    moves after [runRunCmd] has returned: the process exits. *)
Definition step (w : World) (s : state) (l : label) : option state :=
  match at_ s with
  | Exited => None
  | _ => move w s l
  end.

Fixpoint exec (w : World) (s : state) (ls : list label) : option state :=
  match ls with
  | [] => Some s
  | l :: ls' =>
      match step w s l with
      | Some s' => exec w s' ls'
      | None => None
      end
  end.

(** The state after the schedule [ls], if [ls] is a run of the program. *)
Definition run (w : World) (ls : list label) : option state := exec w init ls.

End Run.

(** ** Invariants of the runs *)

Definition registered (st : status) : Prop := st ≠ NotStarted.

(** What holds in every state of every run in the world [w]. *)
Record Inv {MainnetNetwork TestnetNetwork : string} {w : World}
    (s : state) : Prop := {
  inv_cfg : ∀ c, cfg s = Some c → LoadConfiguration w = Ok c;
  inv_exit : returned s = None ↔ at_ s ≠ Exited;
  inv_entry : at_ s = L55 → s = init;
  inv_deferred :
    returned s = None →
    deferred s = if client s then [CloseClient] else [];
  inv_no_client :
    match at_ s with
    | L55 | L62 | L75 | L79 | L82 | L89 => client s = false
    | _ => True
    end;
  inv_online :
    at_ s = L89 → ∃ c, cfg s = Some c ∧ Mode c = Online;
  inv_closes :
    closes (trace s) =
    if client s then (match returned s with Some _ => 1%nat | None => 0%nat end)
    else 0%nat;
  inv_geth :
    registered (geth s) →
    ∃ c, cfg s = Some c ∧ Mode c = Online ∧ RemoteGeth c = false;
  inv_client :
    client s = true → ∃ c, cfg s = Some c ∧ Mode c = Online;
  inv_newclient :
    ∀ u p o, EvNewClient u p o ∈ trace s →
    ∃ c, cfg s = Some c ∧ Mode c = Online
         ∧ u = GethURL c ∧ p = Params c ∧ o = mkOpts MainnetNetwork TestnetNetwork c;
  inv_server :
    ∀ srv, server s = Some srv →
    ∃ c, cfg s = Some c ∧ srv = mkServer c;
  inv_serve_server :
    match at_ s with
    | L116 | L121 | L130 | L131 => is_Some (server s)
    | _ => registered (serve s) → is_Some (server s)
    end;
  inv_serve_nonnil :
    ∀ r, serve s = Returned r → is_Some r ∧ is_Some (gerr s);
  inv_join_tasks :
    match at_ s with
    | L130 | L131 => registered (serve s) ∧ registered (shutdown s)
    | L55 | L62 | L75 | L79 | L82 | L89 | L104 | L116 =>
        serve s = NotStarted ∧ shutdown s = NotStarted
    | L121 => registered (serve s) ∧ shutdown s = NotStarted
    | Exited => True
    end;
  inv_wait :
    ∀ j, EvWait j ∈ trace s →
    is_Some j
    ∧ match at_ s with
      | L131 => err s = j
      | Exited =>
          returned s = Some (if SignalReceived s then Some halted else j)
      | _ => False
      end;
  inv_joined :
    match at_ s with
    | L131 => ∃ j, EvWait j ∈ trace s
    | Exited =>
        (∃ j, EvWait j ∈ trace s)
        ∨ watcher s = NoWatcher
        ∨ (client s = false ∧ ∃ c, cfg s = Some c ∧ Mode c = Online)
    | _ => True
    end;
  inv_no_watcher :
    match at_ s with
    | L55 | L62 | L75 => watcher s = NoWatcher
    | _ => True
    end;
  inv_signal : SignalReceived s = true ↔ watcher s = Handled;
  inv_signal_cancel : SignalReceived s = true → rootCancelled s = true;
  inv_shutdown_ctx : ∀ d, EvShutdown d ∈ trace s → d = true;
  inv_inShutdown : inShutdown s = true → ctx_Done s = true;
}.

Definition no_tasks (s : state) : Prop :=
  geth s = NotStarted ∧ serve s = NotStarted ∧ shutdown s = NotStarted.

(** Where a run can be when [NewClient] fails. *)
Definition before_client (c : Configuration) (e : error) (s : state) : Prop :=
  serve s = NotStarted ∧ shutdown s = NotStarted ∧ client s = false
  ∧ (registered (geth s) → RemoteGeth c = false)
  ∧ match at_ s with
    | L55 | L62 | L75 | L79 | L82 => returned s = None ∧ geth s = NotStarted
    | L89 => returned s = None ∧ (RemoteGeth c = false → registered (geth s))
    | Exited =>
        returned s = Some (Some (Wrap e "cannot initialize ethereum client"))
        ∧ (RemoteGeth c = false → registered (geth s))
    | _ => False
    end.

(** ** Further invariants of the runs *)

(** How many times [optimism.NewClient] was called. *)
Fixpoint news (tr : list event) : nat :=
  match tr with
  | [] => 0%nat
  | EvNewClient _ _ _ :: tr' => S (news tr')
  | _ :: tr' => news tr'
  end.

(** How many times [server.Shutdown] was called. *)
Fixpoint shutdowns (tr : list event) : nat :=
  match tr with
  | [] => 0%nat
  | EvShutdown _ :: tr' => S (shutdowns tr')
  | _ :: tr' => shutdowns tr'
  end.

(** Some task of the group has returned the error [e]. *)
Definition returned_by_task (e : error) (s : state) : Prop :=
  geth s = Returned (Some e)
  ∨ serve s = Returned (Some e)
  ∨ shutdown s = Returned (Some e).

Record Inv2 (s : state) : Prop := {
  inv2_root : rootCancelled s = true → SignalReceived s = true;
  inv2_group : groupCancelled s = true → is_Some (gerr s);
  inv2_gerr_cancel : is_Some (gerr s) → groupCancelled s = true;
  inv2_no_geth :
    match at_ s with
    | L55 | L62 | L75 | L79 | L82 => geth s = NotStarted
    | _ => True
    end;
  inv2_gerr_task : ∀ e, gerr s = Some e → returned_by_task e s;
  inv2_shutdown : ∀ r, shutdown s = Returned r → inShutdown s = true;
  inv2_joined_all :
    (∃ j, EvWait j ∈ trace s) →
    all_finished s = true
    ∧ registered (serve s) ∧ registered (shutdown s);
  inv2_joined_gerr : ∀ j, EvWait j ∈ trace s → gerr s = j;
  inv2_watching :
    match at_ s with
    | L79 | L82 | L89 | L104 | L116 | L121 | L130 | L131 =>
        watcher s ≠ NoWatcher
    | _ => True
    end;
  inv2_watcher :
    watcher s = NoWatcher →
    no_tasks s ∧ client s = false ∧ news (trace s) = 0%nat;
  inv2_news :
    (news (trace s) ≤ 1)%nat
    ∧ match at_ s with
      | L55 | L62 | L75 | L79 | L82 | L89 => news (trace s) = 0%nat
      | _ => True
      end;
  inv2_shutdowns :
    shutdowns (trace s) = if inShutdown s then 1%nat else 0%nat;
  inv2_returned : ∀ r, returned s = Some r → is_Some r;
}.

(** The labels with which a run waiting in [g.Wait()] is brought to
    its end once the context is done: the embedded node returns, the
    shutdown task passes [<-ctx.Done()] and [server.Shutdown] returns,
    [ListenAndServe] returns, and the main goroutine runs its last two
    statements. *)
Definition finish_schedule (s : state) : list label :=
  match geth s with
  | Running => [GethReturns None]
  | _ => []
  end
  ++ match shutdown s with
     | Running =>
         (if inShutdown s then [] else [CtxDone]) ++ [ShutdownReturns None]
     | _ => []
     end
  ++ match serve s with
     | Running => [ServeClosed]
     | _ => []
     end
  ++ [Main; Main].

(** ** net/http: what [Server.Shutdown] does with its context *)

(** A context as [Shutdown] sees it at the call: whether [Done] is
    already closed and, if not, the ticks left until its deadline
    ([None]: no deadline). *)
Record Context : Type := {
  Done : bool;
  Deadline : option nat;
}.

Record ShutdownResult : Type := {
  shErr : option error;   (* what Shutdown returns *)
  shWaited : nat;         (* for how many ticks it waited *)
  shOpen : list nat;      (* the requests still in flight when it returns *)
}.

Definition DeadlineExceeded : error := New "context deadline exceeded".

(** [srv.Shutdown(ctx)] as net/http documents it (the package is Go's
    standard library, not part of the repository).  [conns] gives, for
    every open connection, the ticks its request in flight still needs
    (0: idle); [lnerr] is the error of closing the listeners.  Shutdown
    closes the listeners and the idle connections and waits for the
    others to become idle; it returns [lnerr] when all are, and
    [ctx.Err()] as soon as the context is done before that.  It never
    closes a connection whose request is in flight. *)
Definition Shutdown (ctx : Context) (lnerr : option error) (conns : list nat)
  : ShutdownResult :=
  let window := if Done ctx then Some 0%nat else Deadline ctx in
  match window with
  | None => {| shErr := lnerr; shWaited := max_list conns; shOpen := [] |}
  | Some d =>
      match List.filter (λ c, d <? c)%nat conns with
      | [] => {| shErr := lnerr; shWaited := max_list conns; shOpen := [] |}
      | c :: rest =>
          {| shErr := Some (if Done ctx then Canceled else DeadlineExceeded);
             shWaited := d;
             shOpen := List.map (λ c, c - d)%nat (c :: rest) |}
      end
  end.

(** The [ctx] of line 127: the context derived by [errgroup.WithContext]
    from [context.WithCancel(context.Background())]; no deadline is set
    on it or on its parents. *)
Definition group_ctx (s : state) : Context :=
  {| Done := ctx_Done s; Deadline := None |}.

(** ** Errors of the tasks and the client *)

(** The error with which a task returns at the label, if it does. *)
Definition label_error (l : label) : option error :=
  match l with
  | GethReturns r => r
  | ServeFails e => Some e
  | ServeClosed => Some ErrServerClosed
  | ShutdownReturns r => r
  | Main | Signal | CtxDone => None
  end.

(** No task of the group has returned an error so far. *)
Definition no_task_error (s : state) : Prop :=
  ∀ e, ¬ returned_by_task e s.

Record Inv3 {w : World} (s : state) : Prop := {
  inv3_client_new :
    client s = true →
    ∃ u p o, EvNewClient u p o ∈ trace s ∧ NewClient w u p o = None;
  inv3_new_client :
    ∀ u p o, EvNewClient u p o ∈ trace s → NewClient w u p o = None →
    client s = true;
  inv3_task_error : ∀ e, returned_by_task e s → is_Some (gerr s);
}.

(** ** Concrete worlds and schedules *)

Definition mainnet : string := "Mainnet".
Definition testnet : string := "Testnet".

Definition cfg_offline : Configuration :=
  {| Mode := Offline;
     cNetwork := {| Blockchain := "Optimism"; Network := "Mainnet" |};
     Port := 8080;
     RemoteGeth := false;
     GethArguments := "";
     GethURL := "http://localhost:8545";
     Params := chainConfig 10;
     L2GethHTTPTimeout := 120 * Second;
     MaxConcurrentTraces := 4;
     cEnableTraceCache := false;
     cEnableGethTracer := false |}.

Definition cfg_online (remote : bool) : Configuration :=
  {| Mode := Online;
     cNetwork := {| Blockchain := "Optimism"; Network := "Mainnet" |};
     Port := 8080;
     RemoteGeth := remote;
     GethArguments := "--config=/app/optimism/geth.toml";
     GethURL := "http://localhost:8545";
     Params := chainConfig 10;
     L2GethHTTPTimeout := 120 * Second;
     MaxConcurrentTraces := 4;
     cEnableTraceCache := false;
     cEnableGethTracer := false |}.

(** Every constructor succeeds. *)
Definition world_ok (c : Configuration) : World :=
  {| LoadConfiguration := Ok c;
     NewServer := λ _, None;
     NewClient := λ _ _ _, None |}.

(** The client cannot be built. *)
Definition world_no_client (c : Configuration) : World :=
  {| LoadConfiguration := Ok c;
     NewServer := λ _, None;
     NewClient := λ _ _ _, Some (New "dial failed") |}.

Definition world_no_config : World :=
  {| LoadConfiguration := Err (New "MODE must be populated");
     NewServer := λ _, None;
     NewClient := λ _ _ _, None |}.

Definition world_no_asserter (c : Configuration) : World :=
  {| LoadConfiguration := Ok c;
     NewServer := λ _, Some (New "no supported networks");
     NewClient := λ _ _ _, None |}.

(** Offline: the main goroutine runs to [g.Wait()], a signal arrives, the
    shutdown task shuts the server down, both tasks return, [Wait]
    returns and the function returns. *)
Definition sched_offline_signal : list label :=
  [Main; Main; Main; Main; Main; Main; Main; Main;
   Signal; CtxDone; ShutdownReturns None; ServeClosed; Main; Main].

(** Online with an embedded node that fails; no signal. *)
Definition sched_online_geth_fails : list label :=
  [Main; Main; Main; Main; Main; Main; Main; Main; Main;
   GethReturns (Some (New "geth exited")); CtxDone; ServeClosed;
   ShutdownReturns (Some Canceled); Main; Main].

(** Online with an embedded node; a signal ends the run. *)
Definition sched_online_signal : list label :=
  [Main; Main; Main; Main; Main; Main; Main; Main; Main;
   Signal; GethReturns None; CtxDone; ServeClosed;
   ShutdownReturns None; Main; Main].

(** The main goroutine alone, up to the failure of [NewClient]. *)
Definition sched_to_client : list label :=
  [Main; Main; Main; Main; Main; Main].

(** The state a schedule ends in (the initial state if the schedule is
    not a run). *)
Definition final (w : World) (ls : list label) : state :=
  default init (run mainnet testnet w ls).

(** [ls] is a run in the world [w]. *)
Definition is_run (w : World) (ls : list label) : bool :=
  match run mainnet testnet w ls with
  | Some _ => true
  | None => false
  end.

Definition is_NewClient (e : event) : bool :=
  match e with
  | EvNewClient _ _ _ => true
  | _ => false
  end.

Definition s_offline_signal : state :=
  final (world_ok cfg_offline) sched_offline_signal.

(** The same run up to the return of [g.Wait()]. *)
Definition sched_offline_joined : list label :=
  [Main; Main; Main; Main; Main; Main; Main; Main;
   Signal; CtxDone; ShutdownReturns None; ServeClosed; Main].

Definition s_offline_joined : state :=
  final (world_ok cfg_offline) sched_offline_joined.

Definition s_online_geth_fails : state :=
  final (world_ok (cfg_online false)) sched_online_geth_fails.

Definition s_no_client : state :=
  final (world_no_client (cfg_online false)) sched_to_client.

Definition s_remote_geth : state :=
  final (world_ok (cfg_online true)) sched_to_client.

(** Offline, [ListenAndServe] fails by itself (the port is taken); no
    signal. *)
Definition sched_offline_bind_fails : list label :=
  [Main; Main; Main; Main; Main; Main; Main; Main;
   ServeFails (New "listen tcp :8080: bind: address already in use");
   CtxDone; ShutdownReturns None; Main; Main].

Definition s_offline_bind_fails : state :=
  final (world_ok cfg_offline) sched_offline_bind_fails.

(** The same run up to the failure. *)
Definition sched_offline_bind_failed : list label :=
  [Main; Main; Main; Main; Main; Main; Main; Main;
   ServeFails (New "listen tcp :8080: bind: address already in use")].

Definition s_offline_bind_failed : state :=
  final (world_ok cfg_offline) sched_offline_bind_failed.

(** Offline, waiting in [g.Wait()]; then a signal; then the shutdown
    task past [<-ctx.Done()]. *)
Definition sched_offline_waiting : list label :=
  [Main; Main; Main; Main; Main; Main; Main; Main].

Definition s_offline_waiting : state :=
  final (world_ok cfg_offline) sched_offline_waiting.

Definition s_offline_cancelled : state :=
  final (world_ok cfg_offline) (sched_offline_waiting ++ [Signal]).

Definition s_offline_shutting_down : state :=
  final (world_ok cfg_offline) (sched_offline_waiting ++ [Signal; CtxDone]).

(** The DAI address, the same on both networks. *)
Definition DAI : string := "0xda10009cbd5d07dd0cecc66161fc93d7c9000da1".

(** [g.Wait()] has just returned the bind error; no signal so far. *)
Definition sched_offline_bind_joined : list label :=
  [Main; Main; Main; Main; Main; Main; Main; Main;
   ServeFails (New "listen tcp :8080: bind: address already in use");
   CtxDone; ShutdownReturns None; Main].

Definition s_offline_bind_joined : state :=
  final (world_ok cfg_offline) sched_offline_bind_joined.

(** ... and a signal arrives before the test of [SignalReceived]. *)
Definition s_offline_bind_late_signal : state :=
  final (world_ok cfg_offline) (sched_offline_bind_joined ++ [Signal; Main]).

(** Offline with a signal; [Shutdown] returns [ctx.Err()] before
    [ListenAndServe] returns. *)
Definition sched_offline_canceled_first : list label :=
  [Main; Main; Main; Main; Main; Main; Main; Main;
   Signal; CtxDone; ShutdownReturns (Some Canceled); ServeClosed; Main; Main].

Definition s_offline_shutdown_canceled : state :=
  final (world_ok cfg_offline)
    (sched_offline_waiting ++ [Signal; CtxDone; ShutdownReturns (Some Canceled)]).

Definition s_offline_canceled_first : state :=
  final (world_ok cfg_offline) sched_offline_canceled_first.

(** Online with an embedded node: up to [g.Wait()], then the node fails. *)
Definition sched_online_waiting : list label :=
  [Main; Main; Main; Main; Main; Main; Main; Main; Main].

Definition s_online_waiting : state :=
  final (world_ok (cfg_online false)) sched_online_waiting.

Definition s_online_geth_failed : state :=
  final (world_ok (cfg_online false))
    (sched_online_waiting ++ [GethReturns (Some (New "geth exited"))]).

Definition s_online_signal : state :=
  final (world_ok (cfg_online false)) sched_online_signal.

(** The state after [ls] from [s] (the initial state if [ls] cannot be
    run from [s]). *)
Definition after (w : World) (s : state) (ls : list label) : state :=
  default init (exec mainnet testnet w s ls).

Definition can_exec (w : World) (s : state) (ls : list label) : bool :=
  match exec mainnet testnet w s ls with
  | Some _ => true
  | None => false
  end.

(** * Properties *)

(** ** The token table *)

Section TokenTable.

Variable MainnetNetwork : string.
Variable TestnetNetwork : string.

Local Abbreviation tokens := (getSupportedTokens MainnetNetwork TestnetNetwork).

Lemma tokens_mainnet_size : size (tokens MainnetNetwork) = 6%nat.
Proof.
  unfold getSupportedTokens. rewrite decide_True by done.
  vm_compute. reflexivity.
Qed.

Lemma tokens_default network :
  network ≠ MainnetNetwork → network ≠ TestnetNetwork →
  tokens network = {[ OP := true ]}.
Proof.
  intros Hm Ht. unfold getSupportedTokens.
  rewrite decide_False by done. rewrite decide_False by done.
  reflexivity.
Qed.

Lemma tokens_OP network : tokens network !! OP = Some true.
Proof.
  unfold getSupportedTokens, OP.
  repeat case_decide; apply lookup_insert_eq.
Qed.

(** C7: the table of the production network has exactly 6 entries, one
    of them the OP address; the table of a name that is neither the
    production nor the test network has exactly 1 entry, the OP address. *)
Theorem getSupportedTokens_sizes network :
  (size (tokens MainnetNetwork) = 6%nat
   ∧ tokens MainnetNetwork !! OP = Some true)
  ∧ (network ≠ MainnetNetwork → network ≠ TestnetNetwork →
     size (tokens network) = 1%nat
     ∧ tokens network = {[ OP := true ]}).
Proof.
  split.
  - split; [apply tokens_mainnet_size | apply tokens_OP].
  - intros Hm Ht. rewrite (tokens_default _ Hm Ht).
    split; [apply map_size_singleton | reflexivity].
Qed.

(** C10: for every network name the result is defined, every address
    present in it is mapped to [true], and the OP address is present. *)
Theorem getSupportedTokens_all_true network :
  map_Forall (λ _ supported, supported = true) (tokens network)
  ∧ tokens network !! OP = Some true.
Proof.
  split; [| apply tokens_OP].
  unfold getSupportedTokens.
  repeat case_decide;
    repeat (apply map_Forall_insert_2; [reflexivity |]);
    apply map_Forall_empty.
Qed.

End TokenTable.

Lemma getSupportedTokens_sizes_witness :
  "Devnet" ≠ mainnet ∧ "Devnet" ≠ testnet
  ∧ size (getSupportedTokens mainnet testnet "Devnet") = 1%nat.
Proof.
  split; [discriminate |]. split; [discriminate |].
  apply (getSupportedTokens_sizes mainnet testnet "Devnet"); discriminate.
Defined.

(** ** Runs of [runRunCmd] *)

Lemma closes_app tr1 tr2 : closes (tr1 ++ tr2) = (closes tr1 + closes tr2)%nat.
Proof.
  induction tr1 as [| e tr1 IH]; [reflexivity |].
  destruct e; simpl; rewrite IH; reflexivity.
Qed.

Lemma run_deferred_all ds s :
  fold_left run_deferred ds s =
  mkState (at_ s) (cfg s) (err s) (server s) (client s) (deferred s)
          (SignalReceived s) (watcher s) (rootCancelled s) (groupCancelled s)
          (gerr s) (geth s) (serve s) (shutdown s) (inShutdown s)
          (trace s ++ map (λ _, EvClose) ds) (returned s).
Proof.
  revert s. induction ds as [| d ds IH]; intros s; simpl.
  - rewrite app_nil_r. destruct s; reflexivity.
  - rewrite IH. destruct d; simpl. rewrite <- app_assoc. reflexivity.
Qed.

(** [return r] spelled out on the fields. *)
Lemma return_eq r s :
  return_ r s =
  mkState Exited (cfg s) (err s) (server s) (client s) []
          (SignalReceived s) (watcher s) (rootCancelled s) (groupCancelled s)
          (gerr s) (geth s) (serve s) (shutdown s) (inShutdown s)
          (trace s ++ map (λ _, EvClose) (deferred s)) (Some r).
Proof. unfold return_. rewrite run_deferred_all. reflexivity. Qed.

Section Supervisor.

Variable MainnetNetwork : string.
Variable TestnetNetwork : string.
Variable w : World.

Local Abbreviation step' := (step MainnetNetwork TestnetNetwork w).
Local Abbreviation exec' := (exec MainnetNetwork TestnetNetwork w).
Local Abbreviation run' := (run MainnetNetwork TestnetNetwork w).
Local Abbreviation mkOpts' := (mkOpts MainnetNetwork TestnetNetwork).
Local Abbreviation Inv' := (@Inv MainnetNetwork TestnetNetwork w).

(** A property kept by every step holds along every run. *)
Lemma exec_invariant (P : state → Prop) :
  (∀ s l s', P s → step' s l = Some s' → P s') →
  ∀ ls s s', P s → exec' s ls = Some s' → P s'.
Proof.
  intros Hstep ls. induction ls as [| l ls IH]; intros s s' HP Hex; simpl in Hex.
  - congruence.
  - destruct (step' s l) as [s1 |] eqn:Hs; [| discriminate].
    eapply IH; [| exact Hex]. eapply Hstep; eauto.
Qed.

Lemma Inv_init : Inv' init.
Proof.
  split; simpl; try done.
  all: try (intros; exfalso; eapply elem_of_nil; eassumption).
  all: unfold registered; simpl; intros; congruence.
Qed.

Arguments return_ : simpl never.

Lemma Wait_Some s s' :
  Wait s = Some s' →
  all_finished s = true
  ∧ s' = emit (EvWait (gerr s)) (set_err (gerr s) (set_groupCancelled true s)).
Proof. unfold Wait. destruct (all_finished s); naive_solver. Qed.

Lemma step_move s l s' :
  step' s l = Some s' →
  at_ s ≠ Exited ∧ move MainnetNetwork TestnetNetwork w s l = Some s'.
Proof. unfold step. destruct (at_ s); naive_solver. Qed.

Ltac split_match Hs :=
  repeat match type of Hs with
  | context [Wait ?x] =>
      let HW := fresh "HW" in
      destruct (Wait x) eqn:HW; simpl in Hs;
      [apply Wait_Some in HW; destruct HW as [HW ->] | discriminate Hs]
  | context [?x ≫= _] =>
      destruct x eqn:?; simpl in Hs; try discriminate Hs
  | context [match ?x with _ => _ end] =>
      destruct x eqn:?; simpl in Hs; try discriminate Hs
  | context [if ?x then _ else _] =>
      destruct x eqn:?; simpl in Hs; try discriminate Hs
  | context [return_ _ _] => rewrite return_eq in Hs; simpl in Hs
  end;
  try (injection Hs as <-).

(** All the ways [step] can succeed: the main goroutine by program
    counter, the other goroutines whatever the program counter. *)
Ltac step_cases Hs :=
  let Hne := fresh "Hne" in
  apply step_move in Hs; destruct Hs as [Hne Hs];
  match type of Hs with
  | move _ _ _ ?s ?l = Some _ =>
      destruct s as [pc0 cfg0 err0 srv0 cl0 df0 sig0 wt0 rc0 gc0 ge0 g0 sv0 sh0 ins0 tr0 ret0];
      unfold move, runRunCmd, handleSignals, StartGeth, task_returns, Go,
        ctx_Done in Hs;
      rewrite ?return_eq in Hs; simpl in Hs, Hne;
      destruct l; simpl in Hs;
      [ destruct pc0; simpl in Hs; try discriminate Hs | .. ];
      split_match Hs
  end.

Ltac in_trace :=
  repeat match goal with
  | H : _ ∈ _ ++ _ |- _ => apply elem_of_app in H; destruct H as [H | H]
  | H : _ ∈ _ :: _ |- _ => apply elem_of_cons in H; destruct H as [H | H]
  | H : _ ∈ [] |- _ => apply elem_of_nil in H; destruct H
  | H : _ ∈ ?l |- _ =>
      match l with
      | context [if ?b then _ else _] => destruct b; simpl in H
      end
  end.

Lemma step_cfg s l s' :
  Inv' s → step' s l = Some s' → ∀ c, cfg s' = Some c → LoadConfiguration w = Ok c.
Proof.
  intros HI Hs. pose proof (inv_cfg _ HI) as Hc. clear HI.
  step_cases Hs; simpl in *; intros; simplify_eq; eauto.
Qed.

Lemma step_exit s l s' :
  Inv' s → step' s l = Some s' → (returned s' = None ↔ at_ s' ≠ Exited).
Proof.
  intros HI Hs. pose proof (inv_exit _ HI) as He. clear HI.
  step_cases Hs; simpl in *; try done; try (split; [done | intros; tauto]).
Qed.

Lemma step_entry s l s' :
  Inv' s → step' s l = Some s' → at_ s' = L55 → s' = init.
Proof.
  intros HI Hs. pose proof (inv_entry _ HI) as He. clear HI.
  step_cases Hs; simpl in *; try done.
  all: intros ->; specialize (He eq_refl); discriminate He.
Qed.


Lemma step_deferred s l s' :
  Inv' s → step' s l = Some s' →
  returned s' = None → deferred s' = if client s' then [CloseClient] else [].
Proof.
  intros HI Hs.
  pose proof (inv_deferred _ HI) as Hd. pose proof (inv_exit _ HI) as He.
  pose proof (inv_no_client _ HI) as Hn. clear HI.
  step_cases Hs; simpl in *; try done.
  all: try (intros _; apply Hd, He; done).
  intros Hr. rewrite (Hd Hr), Hn. reflexivity.
Qed.

Lemma step_no_client s l s' :
  Inv' s → step' s l = Some s' →
  match at_ s' with
  | L55 | L62 | L75 | L79 | L82 | L89 => client s' = false
  | _ => True
  end.
Proof.
  intros HI Hs. pose proof (inv_no_client _ HI) as Hn. clear HI.
  step_cases Hs; simpl in *; done.
Qed.


Lemma step_closes s l s' :
  Inv' s → step' s l = Some s' →
  closes (trace s') =
  if client s' then (match returned s' with Some _ => 1%nat | None => 0%nat end)
  else 0%nat.
Proof.
  intros HI Hs.
  pose proof (inv_deferred _ HI) as Hd. pose proof (inv_exit _ HI) as He.
  pose proof (inv_no_client _ HI) as Hn. pose proof (inv_closes _ HI) as Hc.
  clear HI.
  step_cases Hs; simpl in *;
    (assert (ret0 = None) as -> by (apply He; done));
    specialize (Hd eq_refl); subst df0;
    rewrite ?closes_app; simpl; rewrite ?Hc, ?Hn; simpl;
    try done; try (destruct cl0; simpl; lia).
Qed.

Lemma step_online s l s' :
  Inv' s → step' s l = Some s' →
  at_ s' = L89 → ∃ c, cfg s' = Some c ∧ Mode c = Online.
Proof.
  intros HI Hs. pose proof (inv_online _ HI) as Ho. clear HI.
  step_cases Hs; simpl in *; try done; eauto.
Qed.

Ltac use_entry He :=
  try (specialize (He eq_refl); inversion He; subst; clear He).

Lemma step_geth s l s' :
  Inv' s → step' s l = Some s' →
  registered (geth s') →
  ∃ c, cfg s' = Some c ∧ Mode c = Online ∧ RemoteGeth c = false.
Proof.
  intros HI Hs.
  pose proof (inv_geth _ HI) as Hg. pose proof (inv_entry _ HI) as He.
  clear HI. unfold registered in *.
  step_cases Hs; simpl in *; try done.
  all: try (intros _; apply Hg; done).
  all: use_entry He; try done.
  intros _. exists c. destruct (RemoteGeth c); done.
Qed.

Lemma step_client s l s' :
  Inv' s → step' s l = Some s' →
  client s' = true → ∃ c, cfg s' = Some c ∧ Mode c = Online.
Proof.
  intros HI Hs.
  pose proof (inv_client _ HI) as Hg. pose proof (inv_entry _ HI) as He.
  pose proof (inv_online _ HI) as Ho.
  clear HI.
  step_cases Hs; simpl in *; try done.
  all: use_entry He; try done.
  intros _. apply Ho. reflexivity.
Qed.

Lemma step_newclient s l s' :
  Inv' s → step' s l = Some s' →
  ∀ u p o, EvNewClient u p o ∈ trace s' →
  ∃ c, cfg s' = Some c ∧ Mode c = Online
       ∧ u = GethURL c ∧ p = Params c ∧ o = mkOpts' c.
Proof.
  intros HI Hs.
  pose proof (inv_newclient _ HI) as Hg. pose proof (inv_entry _ HI) as He.
  pose proof (inv_online _ HI) as Ho.
  pose proof (inv_deferred _ HI) as Hd. pose proof (inv_exit _ HI) as Hx.
  clear HI.
  step_cases Hs; simpl in *; try done.
  all: (assert (ret0 = None) as -> by (apply Hx; done));
    specialize (Hd eq_refl); subst df0.
  all: use_entry He.
  all: intros u p o Hin; in_trace; try discriminate; eauto.
  all: destruct (Ho eq_refl) as (c0 & [= <-] & Hm);
    injection Hin as -> -> ->; eauto 10.
Qed.

Lemma step_server s l s' :
  Inv' s → step' s l = Some s' →
  ∀ srv, server s' = Some srv → ∃ c, cfg s' = Some c ∧ srv = mkServer c.
Proof.
  intros HI Hs.
  pose proof (inv_server _ HI) as Hg. pose proof (inv_entry _ HI) as He.
  clear HI.
  step_cases Hs; simpl in *; try done.
  all: use_entry He; try done.
  intros srv [= <-]. eauto.
Qed.

Lemma step_serve_server s l s' :
  Inv' s → step' s l = Some s' →
  match at_ s' with
  | L116 | L121 | L130 | L131 => is_Some (server s')
  | _ => registered (serve s') → is_Some (server s')
  end.
Proof.
  intros HI Hs.
  pose proof (inv_serve_server _ HI) as Hg.
  pose proof (inv_join_tasks _ HI) as Hj.
  clear HI. unfold registered in *.
  step_cases Hs; simpl in *; try done; eauto.
  all: destruct pc0; simpl in *; eauto.
Qed.

Lemma step_serve_nonnil s l s' :
  Inv' s → step' s l = Some s' →
  ∀ r, serve s' = Returned r → is_Some r ∧ is_Some (gerr s').
Proof.
  intros HI Hs. pose proof (inv_serve_nonnil _ HI) as Hg. clear HI.
  step_cases Hs; simpl in *; try done; eauto.
  all: try (intros r' Hr; destruct (Hg r' Hr) as [? ?]; eauto; fail).
  all: intros r' [= <-]; eauto.
Qed.

Lemma step_join_tasks s l s' :
  Inv' s → step' s l = Some s' →
  match at_ s' with
  | L130 | L131 => registered (serve s') ∧ registered (shutdown s')
  | L55 | L62 | L75 | L79 | L82 | L89 | L104 | L116 =>
      serve s' = NotStarted ∧ shutdown s' = NotStarted
  | L121 => registered (serve s') ∧ shutdown s' = NotStarted
  | Exited => True
  end.
Proof.
  intros HI Hs. pose proof (inv_join_tasks _ HI) as Hj. clear HI.
  unfold registered in *.
  step_cases Hs; simpl in *; try done; try (intuition congruence).
  all: destruct pc0; simpl in *; try done; intuition congruence.
Qed.

Lemma step_no_watcher s l s' :
  Inv' s → step' s l = Some s' →
  match at_ s' with
  | L55 | L62 | L75 => watcher s' = NoWatcher
  | _ => True
  end.
Proof.
  intros HI Hs. pose proof (inv_no_watcher _ HI) as Hj. clear HI.
  step_cases Hs; simpl in *; try done.
  all: destruct pc0; simpl in *; try done; congruence.
Qed.

Lemma step_signal s l s' :
  Inv' s → step' s l = Some s' →
  (SignalReceived s' = true ↔ watcher s' = Handled).
Proof.
  intros HI Hs. pose proof (inv_signal _ HI) as Hg.
  pose proof (inv_no_watcher _ HI) as Hn. clear HI.
  step_cases Hs; simpl in *; try done.
  all: try (destruct Hg as [H1 H2]; rewrite H2 by reflexivity; done).
  rewrite Hg, Hn. done.
Qed.

Lemma step_signal_cancel s l s' :
  Inv' s → step' s l = Some s' →
  SignalReceived s' = true → rootCancelled s' = true.
Proof.
  intros HI Hs. pose proof (inv_signal_cancel _ HI) as Hg. clear HI.
  step_cases Hs; simpl in *; done.
Qed.

Lemma step_shutdown_ctx s l s' :
  Inv' s → step' s l = Some s' →
  ∀ d, EvShutdown d ∈ trace s' → d = true.
Proof.
  intros HI Hs. pose proof (inv_shutdown_ctx _ HI) as Hg. clear HI.
  step_cases Hs; simpl in *; try done.
  all: intros d Hin; in_trace; try discriminate; eauto.
  all: try (apply list_elem_of_fmap in Hin as (? & ? & ?); discriminate).
  injection Hin as ->. apply andb_prop in Heqb as [Hd _]. exact Hd.
Qed.

Lemma step_inShutdown s l s' :
  Inv' s → step' s l = Some s' →
  inShutdown s' = true → ctx_Done s' = true.
Proof.
  intros HI Hs. pose proof (inv_inShutdown _ HI) as Hg. clear HI.
  unfold ctx_Done in *.
  step_cases Hs; simpl in *; try done.
  all: try (intros Hi; specialize (Hg Hi); destruct rc0; simpl in *; done).
  intros _. apply andb_prop in Heqb as [Hd _]. exact Hd.
Qed.



Lemma step_wait s l s' :
  Inv' s → step' s l = Some s' →
  ∀ j, EvWait j ∈ trace s' →
  is_Some j
  ∧ match at_ s' with
    | L131 => err s' = j
    | Exited => returned s' = Some (if SignalReceived s' then Some halted else j)
    | _ => False
    end.
Proof.
  intros HI Hs.
  pose proof (inv_wait _ HI) as Hw. pose proof (inv_join_tasks _ HI) as Hj.
  pose proof (inv_serve_nonnil _ HI) as Hn.
  clear HI. unfold registered in *.
  step_cases Hs; simpl in *.
  all: intros j Hin; in_trace; try discriminate.
  all: try (apply list_elem_of_fmap in Hin as (? & ? & ?); discriminate).
  all: try (destruct (Hw j Hin) as [? []]; fail).
  all: try (destruct (Hw j Hin) as [? Hm]; split; [done |];
            destruct pc0; simpl in *; done).
  - injection Hin as <-. unfold all_finished in HW. simpl in HW.
    destruct Hj as [Hj _]. destruct sv0 as [| | r]; simpl in HW.
    + done.
    + rewrite andb_false_r in HW. discriminate.
    + destruct (Hn r eq_refl) as [_ Hg]. done.
  - destruct (Hw j Hin) as [? Hm]. done.
  - destruct (Hw j Hin) as [? ->]. done.
Qed.

Lemma step_joined s l s' :
  Inv' s → step' s l = Some s' →
  match at_ s' with
  | L131 => ∃ j, EvWait j ∈ trace s'
  | Exited =>
      (∃ j, EvWait j ∈ trace s')
      ∨ watcher s' = NoWatcher
      ∨ (client s' = false ∧ ∃ c, cfg s' = Some c ∧ Mode c = Online)
  | _ => True
  end.
Proof.
  intros HI Hs.
  pose proof (inv_joined _ HI) as Hj. pose proof (inv_no_watcher _ HI) as Hw.
  pose proof (inv_online _ HI) as Ho. pose proof (inv_no_client _ HI) as Hc.
  clear HI.
  step_cases Hs; simpl in *; try done; eauto.
  all: try (destruct pc0; simpl in *; done).
  - exists ge0. apply elem_of_app. right. apply list_elem_of_singleton. reflexivity.
  - destruct Hj as [j Hj]. left. exists j. apply elem_of_app. by left.
  - destruct Hj as [j Hj]. left. exists j. apply elem_of_app. by left.
  - destruct pc0; simpl in *; try done.
    destruct Hj as [j Hj]. exists j. apply elem_of_app. by left.
Qed.

Lemma Inv_step s l s' : Inv' s → step' s l = Some s' → Inv' s'.
Proof.
  intros HI Hs. split.
  - eapply step_cfg; eauto.
  - eapply step_exit; eauto.
  - eapply step_entry; eauto.
  - eapply step_deferred; eauto.
  - eapply step_no_client; eauto.
  - eapply step_online; eauto.
  - eapply step_closes; eauto.
  - eapply step_geth; eauto.
  - eapply step_client; eauto.
  - eapply step_newclient; eauto.
  - eapply step_server; eauto.
  - eapply step_serve_server; eauto.
  - eapply step_serve_nonnil; eauto.
  - eapply step_join_tasks; eauto.
  - eapply step_wait; eauto.
  - eapply step_joined; eauto.
  - eapply step_no_watcher; eauto.
  - eapply step_signal; eauto.
  - eapply step_signal_cancel; eauto.
  - eapply step_shutdown_ctx; eauto.
  - eapply step_inShutdown; eauto.
Qed.

(** The invariant holds after every run. *)
Lemma Inv_run ls s : run' ls = Some s → Inv' s.
Proof.
  intros Hr. eapply (exec_invariant Inv'); [| apply Inv_init | exact Hr].
  intros. eapply Inv_step; eauto.
Qed.


Lemma joined_elem tr j : joined tr = Some j → EvWait j ∈ tr.
Proof.
  induction tr as [| e tr IH]; simpl; [discriminate |].
  destruct e; intros H; apply elem_of_cons;
    first [right; apply IH; exact H | left; congruence].
Qed.

Lemma returned_Exited s r : Inv' s → returned s = Some r → at_ s = Exited.
Proof.
  intros HI Hr. destruct (inv_exit _ HI) as [_ He].
  destruct (at_ s); try reflexivity; rewrite He in Hr; done.
Qed.

Lemma SignalReceived_stays s l s' :
  step' s l = Some s' → SignalReceived s = true → SignalReceived s' = true.
Proof. intros Hs. step_cases Hs; simpl; done. Qed.

Lemma exec_app ls1 ls2 s s1 s2 :
  exec' s ls1 = Some s1 → exec' s1 ls2 = Some s2 → exec' s (ls1 ++ ls2) = Some s2.
Proof.
  revert s. induction ls1 as [| l ls1 IH]; intros s H1 H2; simpl in *.
  - congruence.
  - destruct (step' s l); [eauto | discriminate].
Qed.

(** C8 as amended: the embedded-node task is registered only when the
    configuration is online and not on a remote geth; the client is
    constructed only when the configuration is online, remote geth or
    not; offline, neither happens. *)
Theorem online_only ls s c :
  run' ls = Some s →
  LoadConfiguration w = Ok c →
  (registered (geth s) → Mode c = Online ∧ RemoteGeth c = false)
  ∧ (client s = true → Mode c = Online)
  ∧ (∀ u p o, EvNewClient u p o ∈ trace s → Mode c = Online)
  ∧ (Mode c = Offline →
     geth s = NotStarted ∧ client s = false
     ∧ ∀ u p o, EvNewClient u p o ∉ trace s).
Proof.
  intros Hrun Hc. pose proof (Inv_run _ _ Hrun) as HI.
  assert (Hsame : ∀ c', cfg s = Some c' → c' = c).
  { intros c' Hc'. apply (inv_cfg _ HI) in Hc'. congruence. }
  assert (Hg : registered (geth s) → Mode c = Online ∧ RemoteGeth c = false).
  { intros Hg. destruct (inv_geth _ HI Hg) as (c' & Hc' & Hm & Hr).
    apply Hsame in Hc'. subst c'. done. }
  assert (Hcl : client s = true → Mode c = Online).
  { intros Hcl. destruct (inv_client _ HI Hcl) as (c' & Hc' & Hm).
    apply Hsame in Hc'. subst c'. done. }
  assert (Hn : ∀ u p o, EvNewClient u p o ∈ trace s → Mode c = Online).
  { intros u p o Hin.
    destruct (inv_newclient _ HI u p o Hin) as (c' & Hc' & Hm & _).
    apply Hsame in Hc'. subst c'. done. }
  split; [exact Hg |]. split; [exact Hcl |]. split; [exact Hn |].
  intros Hoff. split; [| split].
  - destruct (geth s) eqn:Hgs; [reflexivity | |];
      destruct Hg as [Hm _]; unfold registered; congruence.
  - destruct (client s); [| reflexivity].
    specialize (Hcl eq_refl). congruence.
  - intros u p o Hin. apply Hn in Hin. congruence.
Qed.

(** C9: the server value exists before the serve task is registered, and
    it carries the fixed read timeout of 5 seconds, the fixed idle
    timeout of 30 seconds and, as write timeout, the configured
    [L2GethHTTPTimeout]. *)
Theorem server_timeouts ls s :
  run' ls = Some s →
  (registered (serve s) → is_Some (server s))
  ∧ ∀ srv, server s = Some srv →
    ∃ c, LoadConfiguration w = Ok c
         ∧ ReadTimeout srv = 5 * Second
         ∧ IdleTimeout srv = 30 * Second
         ∧ WriteTimeout srv = L2GethHTTPTimeout c
         ∧ Addr srv = ":" +:+ pretty (Port c).
Proof.
  intros Hrun. pose proof (Inv_run _ _ Hrun) as HI. split.
  - pose proof (inv_serve_server _ HI) as Hs.
    pose proof (inv_join_tasks _ HI) as Hj.
    intros Hreg. destruct (at_ s); auto.
  - intros srv Hsrv. destruct (inv_server _ HI srv Hsrv) as (c & Hc & ->).
    exists c. split; [apply (inv_cfg _ HI), Hc |]. done.
Qed.


(** *** Signals *)

Lemma Signal_sets_flag s s' :
  Inv' s → step' s Signal = Some s' → SignalReceived s' = true.
Proof.
  intros HI Hs. pose proof (inv_signal _ HI) as Hg. clear HI.
  apply step_move in Hs as [_ Hs]. simpl in Hs. unfold handleSignals in Hs.
  destruct (watcher s); simplify_eq; [reflexivity |]. by apply Hg.
Qed.

Lemma signal_delivered ls :
  ∀ s0 s, Inv' s0 → exec' s0 ls = Some s → Signal ∈ ls → SignalReceived s = true.
Proof.
  induction ls as [| l ls IH]; intros s0 s HI Hex Hin.
  - by apply elem_of_nil in Hin.
  - simpl in Hex. destruct (step' s0 l) as [s1 |] eqn:Hs; [| discriminate].
    apply elem_of_cons in Hin as [<- | Hin].
    + apply (exec_invariant (λ x, SignalReceived x = true)) with ls s1; auto.
      * intros x l x' Hx Hstep. eapply SignalReceived_stays; eauto.
      * eapply Signal_sets_flag; eauto.
    + eapply IH; [| exact Hex | exact Hin]. eapply Inv_step; eauto.
Qed.

Lemma elem_joined tr j : EvWait j ∈ tr → is_Some (joined tr).
Proof.
  induction tr as [| e tr IH]; intros Hin.
  - by apply elem_of_nil in Hin.
  - apply elem_of_cons in Hin as [<- | Hin]; [simpl; eauto |].
    destruct e; simpl; eauto.
Qed.

(** C3 as amended: offline, when a signal was delivered and
    [runRunCmd] has returned, [g.Wait()] had returned a non-nil error,
    [SignalReceived] is set and the result is the "halted" error; no
    embedded node was started and no client was created. *)
Theorem offline_signal_halted c ls s r :
  LoadConfiguration w = Ok c →
  Mode c = Offline →
  run' ls = Some s →
  Signal ∈ ls →
  returned s = Some r →
  (∃ e, joined (trace s) = Some (Some e))
  ∧ SignalReceived s = true
  ∧ r = Some halted
  ∧ geth s = NotStarted ∧ client s = false.
Proof.
  intros Hc Hoff Hrun Hsig Hr. pose proof (Inv_run _ _ Hrun) as HI.
  assert (Hflag : SignalReceived s = true).
  { eapply signal_delivered; [apply Inv_init | exact Hrun | exact Hsig]. }
  assert (Hsame : ∀ c', cfg s = Some c' → c' = c).
  { intros c' Hc'. apply (inv_cfg _ HI) in Hc'. congruence. }
  pose proof (inv_joined _ HI) as Hj.
  pose proof (returned_Exited _ _ HI Hr) as Hat. rewrite Hat in Hj.
  destruct Hj as [[j Hj] | [Hnw | (_ & c' & Hc' & Hm)]].
  - destruct (elem_joined _ _ Hj) as [j' Hj'].
    destruct (inv_wait _ HI j' (joined_elem _ _ Hj')) as [[e ->] Hw].
    rewrite Hat, Hflag, Hr in Hw. injection Hw as ->.
    split; [eauto |]. split; [done |]. split; [done |].
    split.
    + destruct (geth s) eqn:Hg; [reflexivity | |];
        (destruct (inv_geth _ HI) as (c' & Hc' & Hm & _);
         [unfold registered; congruence |
          apply Hsame in Hc'; congruence]).
    + destruct (client s) eqn:Hcl; [| reflexivity].
      destruct (inv_client _ HI Hcl) as (c' & Hc' & Hm).
      apply Hsame in Hc'. congruence.
  - apply (inv_signal _ HI) in Hflag. congruence.
  - apply Hsame in Hc'. congruence.
Qed.

(** *** The serve task *)

Lemma inShutdown_stays s l s' :
  step' s l = Some s' → inShutdown s = true → inShutdown s' = true.
Proof. intros Hs. step_cases Hs; simpl; done. Qed.

Lemma serve_step_origin s l s' r :
  step' s l = Some s' →
  serve s' = Returned r →
  serve s = Returned r
  ∨ (l = ServeClosed ∧ r = Some ErrServerClosed ∧ inShutdown s' = true)
  ∨ (∃ e, l = ServeFails e ∧ r = Some e).
Proof.
  intros Hs. step_cases Hs; simpl; try (left; assumption); try done.
  all: try (intros [= <-]; eauto).
Qed.

Lemma serve_result_origin ls :
  ∀ s0 s r, exec' s0 ls = Some s → serve s = Returned r →
  serve s0 = Returned r
  ∨ (r = Some ErrServerClosed ∧ ServeClosed ∈ ls ∧ inShutdown s = true)
  ∨ (∃ e, r = Some e ∧ ServeFails e ∈ ls).
Proof.
  induction ls as [| l ls IH]; intros s0 s r Hex Hr; simpl in Hex.
  - left. congruence.
  - destruct (step' s0 l) as [s1 |] eqn:Hs; [| discriminate].
    destruct (IH _ _ _ Hex Hr) as [H1 | [(-> & Hin & Hsh) | (e & -> & Hin)]].
    + destruct (serve_step_origin _ _ _ _ Hs H1)
        as [H0 | [(-> & -> & Hsh) | (e & -> & ->)]].
      * by left.
      * right. left. split; [done |]. split; [apply elem_of_cons; by left |].
        apply (exec_invariant (λ x, inShutdown x = true)) with ls s1; auto.
        intros x l x' Hx Hstep. eapply inShutdown_stays; eauto.
      * right. right. exists e. split; [done |]. apply elem_of_cons. by left.
    + right. left. split; [done |]. split; [| done]. apply elem_of_cons. by right.
    + right. right. exists e. split; [done |]. apply elem_of_cons. by right.
Qed.

(** C4 as amended: the serve task returns what [ListenAndServe]
    returns, unfiltered, and that is never nil: either the error with
    which binding or serving failed or, when the paired shutdown task has
    shut the server down, [http.ErrServerClosed]; once it has returned,
    the group holds a non-nil error. *)
Theorem serve_task_result ls s r :
  run' ls = Some s →
  serve s = Returned r →
  ((r = Some ErrServerClosed ∧ ServeClosed ∈ ls ∧ inShutdown s = true)
   ∨ (∃ e, r = Some e ∧ ServeFails e ∈ ls))
  ∧ is_Some (gerr s).
Proof.
  intros Hrun Hr. split.
  - destruct (serve_result_origin _ _ _ _ Hrun Hr) as [H0 | H]; [| exact H].
    discriminate H0.
  - pose proof (Inv_run _ _ Hrun) as HI.
    destruct (inv_serve_nonnil _ HI r Hr) as [_ Hg]. exact Hg.
Qed.


(** *** Fatal errors of the constructors *)

Lemma step_init l s' :
  step' init l = Some s' → l = Main ∧ runRunCmd MainnetNetwork TestnetNetwork w init = Some s'.
Proof.
  intros Hs. apply step_move in Hs as [_ Hs].
  destruct l; simpl in Hs; try discriminate. done.
Qed.

Lemma returned_return r s : returned (return_ r s) = Some r.
Proof. rewrite return_eq. reflexivity. Qed.

Lemma step_returned r s l : step' (return_ r s) l = None.
Proof. unfold step. rewrite return_eq. reflexivity. Qed.

Lemma config_failure_states e ls s :
  LoadConfiguration w = Err e →
  run' ls = Some s →
  s = init ∨ s = return_ (Some (Wrap e "unable to load configuration")) init.
Proof.
  intros Hload Hrun.
  apply (exec_invariant
           (λ s, s = init
                 ∨ s = return_ (Some (Wrap e "unable to load configuration")) init))
    with ls init; auto.
  clear Hrun. intros s0 l s' [-> | ->] Hs.
  - apply step_init in Hs as [-> Hs]. unfold runRunCmd in Hs. simpl in Hs.
    rewrite Hload in Hs. injection Hs as <-. by right.
  - rewrite step_returned in Hs. discriminate.
Qed.

Lemma asserter_failure_states c e ls s :
  LoadConfiguration w = Ok c →
  NewServer w [cNetwork c] = Some e →
  run' ls = Some s →
  s = init
  ∨ s = set_at L62 (set_cfg (Some c) init)
  ∨ s = return_ (Some (Wrap e "could not initialize server asserter"))
          (set_at L62 (set_cfg (Some c) init)).
Proof.
  intros Hload Hsrv Hrun.
  apply (exec_invariant
           (λ s, s = init
                 ∨ s = set_at L62 (set_cfg (Some c) init)
                 ∨ s = return_ (Some (Wrap e "could not initialize server asserter"))
                         (set_at L62 (set_cfg (Some c) init))))
    with ls init; auto.
  clear Hrun. intros s0 l s' [-> | [-> | ->]] Hs.
  - apply step_init in Hs as [-> Hs]. unfold runRunCmd in Hs. simpl in Hs.
    rewrite Hload in Hs. injection Hs as <-. right. by left.
  - apply step_move in Hs as [_ Hs].
    destruct l; simpl in Hs; try discriminate.
    unfold runRunCmd in Hs. simpl in Hs. rewrite Hsrv in Hs.
    injection Hs as <-. right. by right.
  - rewrite step_returned in Hs. discriminate.
Qed.

Lemma client_failure_states c e ls s :
  LoadConfiguration w = Ok c →
  NewServer w [cNetwork c] = None →
  Mode c = Online →
  NewClient w (GethURL c) (Params c) (mkOpts' c) = Some e →
  run' ls = Some s →
  before_client c e s.
Proof.
  intros Hload Hsrv Hon Hcl Hrun.
  cut (Inv' s ∧ before_client c e s); [tauto |].
  apply (exec_invariant (λ s, Inv' s ∧ before_client c e s)) with ls init; auto.
  - clear Hrun. intros s0 l s' [HI HB] Hs.
    split; [eapply Inv_step; eauto |].
    assert (Hsame : ∀ c', cfg s0 = Some c' → c' = c).
    { intros c' Hc'. apply (inv_cfg _ HI) in Hc'. congruence. }
    clear HI. unfold before_client, registered in *.
    destruct HB as (Hsv & Hsh & Hnc & Hg & Hat).
    step_cases Hs; simpl in *; try done;
      try (specialize (Hsame _ eq_refl); subst c0).
    all: try congruence.
    all: try (destruct Hat as [Hr Hg0]; repeat split; try done; congruence).
    all: try (destruct (RemoteGeth c); simpl in *; intuition congruence).
    all: try (destruct pc0; simpl in *; intuition congruence).
  - split; [apply Inv_init |]. unfold before_client, registered. simpl.
    intuition congruence.
Qed.

Lemma run_config_failure e :
  LoadConfiguration w = Err e →
  run' [Main] = Some (return_ (Some (Wrap e "unable to load configuration")) init).
Proof.
  intros Hload. unfold run. simpl. unfold step. simpl.
  unfold runRunCmd. simpl. rewrite Hload. reflexivity.
Qed.

Lemma run_asserter_failure c e :
  LoadConfiguration w = Ok c →
  NewServer w [cNetwork c] = Some e →
  run' [Main; Main] =
  Some (return_ (Some (Wrap e "could not initialize server asserter"))
          (set_at L62 (set_cfg (Some c) init))).
Proof.
  intros Hload Hsrv. unfold run. simpl. unfold step. simpl.
  unfold runRunCmd. simpl. rewrite Hload. simpl. rewrite Hsrv. reflexivity.
Qed.

Lemma exec_cons s l ls s' :
  step' s l = Some s' → exec' s (l :: ls) = exec' s' ls.
Proof. intros Hs. simpl. rewrite Hs. reflexivity. Qed.

(** The main goroutine alone, statement by statement, up to the failure
    of [NewClient]. *)
Lemma main_L55 s c :
  at_ s = L55 → LoadConfiguration w = Ok c →
  ∃ s', step' s Main = Some s' ∧ at_ s' = L62 ∧ cfg s' = Some c.
Proof.
  intros Hat Hload. destruct s; simpl in *; subst.
  unfold step, move, runRunCmd; simpl. rewrite Hload.
  eexists. split; [reflexivity |]. done.
Qed.

Lemma main_L62 s c :
  at_ s = L62 → cfg s = Some c → NewServer w [cNetwork c] = None →
  ∃ s', step' s Main = Some s' ∧ at_ s' = L75 ∧ cfg s' = Some c.
Proof.
  intros Hat Hc Hsrv. destruct s; simpl in *; subst.
  unfold step, move, runRunCmd; simpl. rewrite Hsrv.
  eexists. split; [reflexivity |]. done.
Qed.

Lemma main_L75 s c :
  at_ s = L75 → cfg s = Some c →
  ∃ s', step' s Main = Some s' ∧ at_ s' = L79 ∧ cfg s' = Some c.
Proof.
  intros Hat Hc. destruct s; simpl in *; subst.
  unfold step, move, runRunCmd; simpl.
  eexists. split; [reflexivity |]. done.
Qed.

Lemma main_L79 s c :
  at_ s = L79 → cfg s = Some c →
  ∃ s', step' s Main = Some s' ∧ at_ s' = L82 ∧ cfg s' = Some c.
Proof.
  intros Hat Hc. destruct s; simpl in *; subst.
  unfold step, move, runRunCmd; simpl.
  eexists. split; [reflexivity |]. done.
Qed.

Lemma main_L82_online s c :
  at_ s = L82 → cfg s = Some c → Mode c = Online →
  ∃ s', step' s Main = Some s' ∧ at_ s' = L89 ∧ cfg s' = Some c.
Proof.
  intros Hat Hc Hon. destruct s; simpl in *; subst.
  unfold step, move, runRunCmd; simpl. rewrite Hon.
  destruct (RemoteGeth c); simpl; (eexists; split; [reflexivity |]); done.
Qed.

Lemma main_L89_fails s c e :
  at_ s = L89 → cfg s = Some c →
  NewClient w (GethURL c) (Params c) (mkOpts' c) = Some e →
  ∃ s', step' s Main = Some s'
        ∧ returned s' = Some (Some (Wrap e "cannot initialize ethereum client")).
Proof.
  intros Hat Hc Hcl. destruct s; simpl in *; subst.
  unfold step, move, runRunCmd; simpl. rewrite Hcl.
  eexists. split; [reflexivity |]. apply returned_return.
Qed.

Lemma run_client_failure c e :
  LoadConfiguration w = Ok c →
  NewServer w [cNetwork c] = None →
  Mode c = Online →
  NewClient w (GethURL c) (Params c) (mkOpts' c) = Some e →
  ∃ s, run' [Main; Main; Main; Main; Main; Main] = Some s
       ∧ returned s = Some (Some (Wrap e "cannot initialize ethereum client")).
Proof.
  intros Hload Hsrv Hon Hcl.
  destruct (main_L55 init c eq_refl Hload) as (s1 & H1 & Hat1 & Hc1).
  destruct (main_L62 s1 c Hat1 Hc1 Hsrv) as (s2 & H2 & Hat2 & Hc2).
  destruct (main_L75 s2 c Hat2 Hc2) as (s3 & H3 & Hat3 & Hc3).
  destruct (main_L79 s3 c Hat3 Hc3) as (s4 & H4 & Hat4 & Hc4).
  destruct (main_L82_online s4 c Hat4 Hc4 Hon) as (s5 & H5 & Hat5 & Hc5).
  destruct (main_L89_fails s5 c e Hat5 Hc5 Hcl) as (s6 & H6 & Hr).
  exists s6. split; [| exact Hr]. unfold run.
  rewrite (exec_cons _ _ _ _ H1), (exec_cons _ _ _ _ H2),
    (exec_cons _ _ _ _ H3), (exec_cons _ _ _ _ H4),
    (exec_cons _ _ _ _ H5), (exec_cons _ _ _ _ H6).
  reflexivity.
Qed.

(** C5 as amended: when loading the configuration or building the
    asserter fails, [runRunCmd] returns that error, wrapped, with no task
    registered; when building the client fails it returns that error,
    wrapped, with neither the serve nor the shutdown task registered and
    [Close] never called, but the embedded-node task has been registered
    and started exactly when the configuration is not on a remote geth. *)
Theorem fatal_errors_before_tasks :
  (∀ e, LoadConfiguration w = Err e →
     (∃ s, run' [Main] = Some s
           ∧ returned s = Some (Some (Wrap e "unable to load configuration")))
     ∧ ∀ ls s r, run' ls = Some s → returned s = Some r →
         r = Some (Wrap e "unable to load configuration") ∧ no_tasks s)
  ∧ (∀ c e, LoadConfiguration w = Ok c → NewServer w [cNetwork c] = Some e →
     (∃ s, run' [Main; Main] = Some s
           ∧ returned s = Some (Some (Wrap e "could not initialize server asserter")))
     ∧ ∀ ls s r, run' ls = Some s → returned s = Some r →
         r = Some (Wrap e "could not initialize server asserter") ∧ no_tasks s)
  ∧ (∀ c e, LoadConfiguration w = Ok c → NewServer w [cNetwork c] = None →
     Mode c = Online →
     NewClient w (GethURL c) (Params c) (mkOpts' c) = Some e →
     (∃ s, run' [Main; Main; Main; Main; Main; Main] = Some s
           ∧ returned s = Some (Some (Wrap e "cannot initialize ethereum client")))
     ∧ ∀ ls s r, run' ls = Some s → returned s = Some r →
         r = Some (Wrap e "cannot initialize ethereum client")
         ∧ serve s = NotStarted ∧ shutdown s = NotStarted
         ∧ (registered (geth s) ↔ RemoteGeth c = false)
         ∧ closes (trace s) = 0%nat).
Proof.
  split; [| split].
  - intros e Hload. split.
    + eexists. split; [apply run_config_failure, Hload |].
      rewrite return_eq. reflexivity.
    + intros ls s r Hrun Hr.
      destruct (config_failure_states _ _ _ Hload Hrun) as [-> | ->].
      * discriminate Hr.
      * rewrite return_eq in *. simpl in *. injection Hr as <-.
        unfold no_tasks. simpl. done.
  - intros c e Hload Hsrv. split.
    + eexists. split; [apply run_asserter_failure; eassumption |].
      rewrite return_eq. reflexivity.
    + intros ls s r Hrun Hr.
      destruct (asserter_failure_states _ _ _ _ Hload Hsrv Hrun)
        as [-> | [-> | ->]].
      * discriminate Hr.
      * discriminate Hr.
      * rewrite return_eq in *. simpl in *. injection Hr as <-.
        unfold no_tasks. simpl. done.
  - intros c e Hload Hsrv Hon Hcl. split.
    + apply (run_client_failure c e); assumption.
    + intros ls s r Hrun Hr.
      pose proof (Inv_run _ _ Hrun) as HI.
      destruct (client_failure_states _ _ _ _ Hload Hsrv Hon Hcl Hrun)
        as (Hsv & Hsh & Hnc & Hg & Hat).
      rewrite (returned_Exited _ _ HI Hr) in Hat. destruct Hat as [Hr' Hg'].
      rewrite Hr in Hr'. injection Hr' as ->.
      repeat split; try assumption.
      rewrite (inv_closes _ HI), Hnc. reflexivity.
Qed.

(** *** The shutdown task *)

(** [server.Shutdown(ctx)] is entered only behind [<-ctx.Done()], with
    the context whose [Done] channel is closed by then. *)
Lemma Shutdown_ctx_already_done ls s d :
  run' ls = Some s → EvShutdown d ∈ trace s → d = true.
Proof. intros Hrun. apply (inv_shutdown_ctx _ (Inv_run _ _ Hrun)). Qed.

(** *** Further invariants *)

Lemma news_app tr1 tr2 : news (tr1 ++ tr2) = (news tr1 + news tr2)%nat.
Proof.
  induction tr1 as [| e tr1 IH]; [reflexivity |].
  destruct e; simpl; rewrite IH; reflexivity.
Qed.

Lemma shutdowns_app tr1 tr2 :
  shutdowns (tr1 ++ tr2) = (shutdowns tr1 + shutdowns tr2)%nat.
Proof.
  induction tr1 as [| e tr1 IH]; [reflexivity |].
  destruct e; simpl; rewrite IH; reflexivity.
Qed.

Lemma news_closes ds : news (map (λ _ : deferred_call, EvClose) ds) = 0%nat.
Proof. induction ds; simpl; auto. Qed.

Lemma shutdowns_closes ds :
  shutdowns (map (λ _ : deferred_call, EvClose) ds) = 0%nat.
Proof. induction ds; simpl; auto. Qed.

Lemma Inv2_init : Inv2 init.
Proof.
  split; simpl; try done.
  all: try (intros; exfalso; eapply elem_of_nil; eassumption).
  - intros [j Hj]. by apply elem_of_nil in Hj.
  - split; [lia | reflexivity].
Qed.

Lemma finished_registered st :
  finished st = true → st ≠ NotStarted → ∃ r, st = Returned r.
Proof. destruct st; simpl; intros; [done | discriminate | eauto]. Qed.

Lemma all_finished_inv s :
  all_finished s = true →
  finished (geth s) = true ∧ finished (serve s) = true
  ∧ finished (shutdown s) = true.
Proof.
  unfold all_finished. intros H.
  apply andb_prop in H as [H H3]. apply andb_prop in H as [H1 H2]. done.
Qed.

Lemma step2_root s l s' :
  Inv2 s → step' s l = Some s' →
  rootCancelled s' = true → SignalReceived s' = true.
Proof.
  intros HI Hs. pose proof (inv2_root _ HI) as Hr. clear HI.
  step_cases Hs; simpl in *; done.
Qed.

Lemma step2_group s l s' :
  Inv' s → Inv2 s → step' s l = Some s' →
  groupCancelled s' = true → is_Some (gerr s').
Proof.
  intros HI HI2 Hs. pose proof (inv2_group _ HI2) as Hg.
  pose proof (inv_join_tasks _ HI) as Hj.
  pose proof (inv_serve_nonnil _ HI) as Hn. clear HI HI2.
  unfold registered in *.
  step_cases Hs; simpl in *; try done; eauto.
  intros _. apply all_finished_inv in HW as (_ & HW & _). simpl in HW.
  destruct Hj as [Hj _].
  destruct (finished_registered _ HW Hj) as [r ->].
  destruct (Hn r eq_refl) as [_ H]. exact H.
Qed.

Lemma step2_gerr_cancel s l s' :
  Inv2 s → step' s l = Some s' →
  is_Some (gerr s') → groupCancelled s' = true.
Proof.
  intros HI Hs. pose proof (inv2_gerr_cancel _ HI) as Hg. clear HI.
  step_cases Hs; simpl in *; try done; eauto.
Qed.

Lemma step2_no_geth s l s' :
  Inv2 s → step' s l = Some s' →
  match at_ s' with
  | L55 | L62 | L75 | L79 | L82 => geth s' = NotStarted
  | _ => True
  end.
Proof.
  intros HI Hs. pose proof (inv2_no_geth _ HI) as Hg. clear HI.
  step_cases Hs; simpl in *; try done.
  all: destruct pc0; simpl in *; try done; congruence.
Qed.

Lemma step2_gerr_task s l s' :
  Inv' s → Inv2 s → step' s l = Some s' →
  ∀ e, gerr s' = Some e → returned_by_task e s'.
Proof.
  intros HI HI2 Hs. pose proof (inv2_gerr_task _ HI2) as Hg.
  pose proof (inv2_no_geth _ HI2) as Hn.
  pose proof (inv_join_tasks _ HI) as Hj.
  clear HI HI2. unfold returned_by_task in *.
  step_cases Hs; simpl in *; try done; eauto.
  all: intros e' He'; simplify_eq; eauto.
  all: destruct (Hg e' eq_refl) as [Ht | [Ht | Ht]];
    first [congruence | intuition congruence | eauto].
Qed.

Lemma step2_shutdown s l s' :
  Inv' s → Inv2 s → step' s l = Some s' →
  ∀ r, shutdown s' = Returned r → inShutdown s' = true.
Proof.
  intros HI HI2 Hs. pose proof (inv2_shutdown _ HI2) as Hg.
  pose proof (inv_join_tasks _ HI) as Hj.
  clear HI HI2.
  step_cases Hs; simpl in *; try done; eauto.
  all: intros; intuition congruence.
Qed.

Lemma step2_joined_all s l s' :
  Inv' s → Inv2 s → step' s l = Some s' →
  (∃ j, EvWait j ∈ trace s') →
  all_finished s' = true ∧ registered (serve s') ∧ registered (shutdown s').
Proof.
  intros HI HI2 Hs. pose proof (inv2_joined_all _ HI2) as Hg.
  pose proof (inv_wait _ HI) as Hw. pose proof (inv_join_tasks _ HI) as Hj.
  clear HI HI2. unfold registered, all_finished in *.
  step_cases Hs; simpl in *.
  all: intros [j Hin]; in_trace; try discriminate.
  all: try (apply list_elem_of_fmap in Hin as (? & ? & ?); discriminate).
  all: try (destruct (Hw j Hin) as [? []]; fail).
  all: try (apply Hg; eauto; fail).
  all: try (destruct Hg as (Hf & ? & ?); [eauto |]; simpl in Hf;
            rewrite ?andb_false_r in Hf; simpl in Hf; discriminate).
  unfold all_finished in HW. simpl in HW. split; [exact HW | exact Hj].
Qed.

Lemma step2_joined_gerr s l s' :
  Inv' s → Inv2 s → step' s l = Some s' →
  ∀ j, EvWait j ∈ trace s' → gerr s' = j.
Proof.
  intros HI HI2 Hs. pose proof (inv2_joined_gerr _ HI2) as Hg.
  pose proof (inv2_joined_all _ HI2) as Ha.
  pose proof (inv_wait _ HI) as Hw.
  clear HI HI2. unfold registered, all_finished in *.
  step_cases Hs; simpl in *.
  all: intros j Hin; in_trace; try discriminate.
  all: try (apply list_elem_of_fmap in Hin as (? & ? & ?); discriminate).
  all: try (destruct (Hw j Hin) as [? []]; fail).
  all: try (apply Hg; eauto; fail).
  all: try (destruct Ha as (Hf & ? & ?); [eauto |]; simpl in Hf;
            rewrite ?andb_false_r in Hf; simpl in Hf; discriminate).
  all: congruence.
Qed.

Lemma step2_watching s l s' :
  Inv2 s → step' s l = Some s' →
  match at_ s' with
  | L79 | L82 | L89 | L104 | L116 | L121 | L130 | L131 =>
      watcher s' ≠ NoWatcher
  | _ => True
  end.
Proof.
  intros HI2 Hs. pose proof (inv2_watching _ HI2) as Hg. clear HI2.
  step_cases Hs; simpl in *; try done.
  all: destruct pc0; simpl in *; done.
Qed.

Lemma step2_watcher s l s' :
  Inv2 s → step' s l = Some s' →
  watcher s' = NoWatcher →
  no_tasks s' ∧ client s' = false ∧ news (trace s') = 0%nat.
Proof.
  intros HI2 Hs. pose proof (inv2_watcher _ HI2) as Hg.
  pose proof (inv2_watching _ HI2) as Hw.
  clear HI2. unfold no_tasks in *.
  step_cases Hs; simpl in *; try done.
  all: rewrite ?news_app, ?news_closes; simpl; rewrite ?Nat.add_0_r.
  all: try (intros Hn; destruct (Hg Hn) as ((? & ? & ?) & ? & ?); subst;
            simpl in *; done).
Qed.

Lemma step2_news s l s' :
  Inv' s → Inv2 s → step' s l = Some s' →
  (news (trace s') ≤ 1)%nat
  ∧ match at_ s' with
    | L55 | L62 | L75 | L79 | L82 | L89 => news (trace s') = 0%nat
    | _ => True
    end.
Proof.
  intros HI HI2 Hs. pose proof (inv2_news _ HI2) as [Hn Hp].
  clear HI HI2.
  step_cases Hs; simpl in *;
    rewrite ?news_app, ?news_closes; simpl; rewrite ?Nat.add_0_r, ?Hp; simpl;
    try (split; [lia | done]).
Qed.

Lemma step2_shutdowns s l s' :
  Inv2 s → step' s l = Some s' →
  shutdowns (trace s') = if inShutdown s' then 1%nat else 0%nat.
Proof.
  intros HI2 Hs. pose proof (inv2_shutdowns _ HI2) as Hn.
  clear HI2.
  step_cases Hs; simpl in *;
    rewrite ?shutdowns_app, ?shutdowns_closes; simpl; rewrite ?Hn; simpl;
    try lia.
  all: destruct ins0; simpl in *; try lia; try discriminate.
Qed.

Lemma step2_returned s l s' :
  Inv' s → Inv2 s → step' s l = Some s' →
  ∀ r, returned s' = Some r → is_Some r.
Proof.
  intros HI HI2 Hs. pose proof (inv2_returned _ HI2) as Hn.
  pose proof (inv_wait _ HI) as Hw. pose proof (inv_joined _ HI) as Hj.
  clear HI HI2.
  step_cases Hs; simpl in *; try done; eauto.
  all: try (intros r [= <-]; eauto).
  destruct Hj as [j Hj]. destruct (Hw j Hj) as [? <-]. done.
Qed.

Lemma Inv2_step s l s' :
  Inv' s → Inv2 s → step' s l = Some s' → Inv2 s'.
Proof.
  intros HI HI2 Hs. split.
  - eapply step2_root; eauto.
  - eapply step2_group; eauto.
  - eapply step2_gerr_cancel; eauto.
  - eapply step2_no_geth; eauto.
  - eapply step2_gerr_task; eauto.
  - eapply step2_shutdown; eauto.
  - eapply step2_joined_all; eauto.
  - eapply step2_joined_gerr; eauto.
  - eapply step2_watching; eauto.
  - eapply step2_watcher; eauto.
  - eapply step2_news; eauto.
  - eapply step2_shutdowns; eauto.
  - eapply step2_returned; eauto.
Qed.

Lemma Inv2_exec ls s s' :
  Inv' s → Inv2 s → exec' s ls = Some s' → Inv' s' ∧ Inv2 s'.
Proof.
  intros HI HI2 Hex.
  apply (exec_invariant (λ x, Inv' x ∧ Inv2 x)) with ls s; auto.
  intros x l x' [H1 H2] Hstep. split.
  - eapply Inv_step; eauto.
  - eapply Inv2_step; eauto.
Qed.

Lemma Inv2_run ls s : run' ls = Some s → Inv2 s.
Proof.
  intros Hr.
  apply (Inv2_exec ls init s Inv_init Inv2_init Hr).
Qed.



(** *** What the runs never do, and how they end *)

(** X1: whatever the run, [runRunCmd] never returns nil: the three early
    returns wrap an error, and behind the join it returns the "halted"
    error or the join's error, which is never nil since the serve task
    always contributes one. *)
Theorem runRunCmd_never_nil ls s r :
  run MainnetNetwork TestnetNetwork w ls = Some s →
  returned s = Some r →
  is_Some r.
Proof. intros Hrun. apply (inv2_returned _ (Inv2_run _ _ Hrun)). Qed.

(** X2: [optimism.NewClient] is called at most once in a run, and only
    with [cfg.GethURL], [cfg.Params] and options taken field by field
    from the loaded, online configuration; the token table it receives
    is the one of the configured network and contains the OP address. *)
Theorem NewClient_once_from_cfg ls s :
  run' ls = Some s →
  (news (trace s) ≤ 1)%nat
  ∧ ∀ u p o, EvNewClient u p o ∈ trace s →
    ∃ c, LoadConfiguration w = Ok c ∧ Mode c = Online
         ∧ u = GethURL c ∧ p = Params c
         ∧ HTTPTimeout o = L2GethHTTPTimeout c
         ∧ MaxTraceConcurrency o = MaxConcurrentTraces c
         ∧ EnableTraceCache o = cEnableTraceCache c
         ∧ EnableGethTracer o = cEnableGethTracer c
         ∧ SupportedTokens o
           = getSupportedTokens MainnetNetwork TestnetNetwork
               (Network (cNetwork c))
         ∧ SupportedTokens o !! OP = Some true.
Proof.
  intros Hrun. pose proof (Inv_run _ _ Hrun) as HI.
  pose proof (Inv2_run _ _ Hrun) as HI2.
  split; [apply (inv2_news _ HI2) |].
  intros u p o Hin.
  destruct (inv_newclient _ HI u p o Hin) as (c & Hc & Hm & -> & -> & ->).
  exists c. split; [apply (inv_cfg _ HI), Hc |].
  repeat (split; [done |]). apply tokens_OP.
Qed.

(** X3: the server's write timeout and the client's HTTP timeout are the
    same configured value. *)
Theorem server_and_client_timeouts_agree ls s srv u p o :
  run MainnetNetwork TestnetNetwork w ls = Some s →
  server s = Some srv →
  EvNewClient u p o ∈ trace s →
  WriteTimeout srv = HTTPTimeout o.
Proof.
  intros Hrun Hsrv Hin. pose proof (Inv_run _ _ Hrun) as HI.
  destruct (inv_newclient _ HI u p o Hin) as (c & Hc & _ & _ & _ & ->).
  destruct (inv_server _ HI srv Hsrv) as (c' & Hc' & ->).
  rewrite Hc in Hc'. injection Hc' as <-. reflexivity.
Qed.

(** X4: once [g.Wait()] has returned, no goroutine of the group is
    running: the serve and the shutdown task have returned, the embedded
    node is not running, [server.Shutdown] was called exactly once, and
    the value the join returned is [g.err]. *)
Theorem join_waits_for_all_tasks ls s j :
  run' ls = Some s →
  joined (trace s) = Some j →
  geth s ≠ Running
  ∧ (∃ r, serve s = Returned r)
  ∧ (∃ r, shutdown s = Returned r)
  ∧ shutdowns (trace s) = 1%nat
  ∧ gerr s = j.
Proof.
  intros Hrun Hj. pose proof (Inv2_run _ _ Hrun) as HI2.
  apply joined_elem in Hj.
  destruct (inv2_joined_all _ HI2) as (Hf & Hsv & Hsh); [eauto |].
  apply all_finished_inv in Hf as (Hg & Hf1 & Hf2).
  destruct (finished_registered _ Hf1 Hsv) as [r1 Hr1].
  destruct (finished_registered _ Hf2 Hsh) as [r2 Hr2].
  split; [intros H; rewrite H in Hg; discriminate |].
  split; [eauto |]. split; [eauto |].
  split; [| apply (inv2_joined_gerr _ HI2), Hj].
  rewrite (inv2_shutdowns _ HI2), (inv2_shutdown _ HI2 _ Hr2). reflexivity.
Qed.

Lemma gerr_stays s l s' e :
  step' s l = Some s' → gerr s = Some e → gerr s' = Some e.
Proof. intros Hs. step_cases Hs; simpl; done. Qed.

(** X7: [client.Close()] is called only after [g.Wait()] has returned,
    when no goroutine of the group is running any more. *)
Theorem Close_only_after_join ls s :
  run' ls = Some s →
  (0 < closes (trace s))%nat →
  is_Some (joined (trace s)) ∧ all_finished s = true.
Proof.
  intros Hrun Hc. pose proof (Inv_run _ _ Hrun) as HI.
  pose proof (Inv2_run _ _ Hrun) as HI2.
  rewrite (inv_closes _ HI) in Hc.
  destruct (client s) eqn:Hcl; [| lia].
  destruct (returned s) as [r |] eqn:Hr; [| lia].
  pose proof (inv_joined _ HI) as Hj.
  rewrite (returned_Exited _ _ HI Hr) in Hj.
  destruct Hj as [[j Hj] | [Hw | [Hcl' _]]].
  - split; [eapply elem_joined; eauto |].
    destruct (inv2_joined_all _ HI2) as (Hf & _); eauto.
  - destruct (inv2_watcher _ HI2 Hw) as (_ & Hcl' & _). congruence.
  - congruence.
Qed.

(** X8: the signal watcher is started before anything else of the
    concurrent phase: as long as it is not started, no task is
    registered, no client exists and [NewClient] has not been called. *)
Theorem watcher_started_first ls s :
  run' ls = Some s →
  watcher s = NoWatcher →
  no_tasks s ∧ client s = false ∧ news (trace s) = 0%nat.
Proof. intros Hrun. apply (inv2_watcher _ (Inv2_run _ _ Hrun)). Qed.

Lemma finish_waiting_run s :
  Inv' s → Inv2 s →
  at_ s = L130 →
  ctx_Done s = true →
  ∃ s' r, exec' s (finish_schedule s) = Some s'
          ∧ returned s' = Some r
          ∧ (SignalReceived s = true → r = Some halted)
          ∧ (SignalReceived s = false → ∀ e, gerr s = Some e → r = Some e).
Proof.
  intros HI HI2 Hat Hctx.
  pose proof (inv_join_tasks _ HI) as Hj.
  pose proof (inv2_shutdown _ HI2) as Hsh.
  pose proof (inv_deferred _ HI) as Hd.
  pose proof (proj2 (inv_exit _ HI)) as He.
  clear HI HI2. unfold registered, ctx_Done in *.
  destruct s as [pc0 cfg0 err0 srv0 cl0 df0 sig0 wt0 rc0 gc0 ge0 g0 sv0 sh0 ins0 tr0 ret0].
  simpl in *. subst pc0. destruct Hj as [Hsv Hs].
  rewrite He in Hd by done. rewrite He by done. specialize (Hd eq_refl). subst df0.
  clear He.
  destruct sh0 as [| | rs]; [done | |].
  all: destruct sv0 as [| | rv]; [done | |].
  all: destruct g0, ins0, rc0, gc0, cl0, sig0, ge0; try discriminate Hctx.
  all: try (specialize (Hsh _ eq_refl); discriminate Hsh).
  all: cbv; eexists _, _; (split; [reflexivity |]);
    (split; [reflexivity |]);
    (split; intros; first [reflexivity | congruence]).
Qed.

(** X9: a run that waits in [g.Wait()] with the context done can always
    be brought to its end without a further signal and without a failure
    of [ListenAndServe]: after [finish_schedule] it has returned. *)
Theorem cancelled_run_can_finish ls s :
  run' ls = Some s →
  at_ s = L130 →
  ctx_Done s = true →
  ∃ s' r, exec' s (finish_schedule s) = Some s' ∧ returned s' = Some r.
Proof.
  intros Hrun Hat Hctx.
  destruct (finish_waiting_run s (Inv_run _ _ Hrun) (Inv2_run _ _ Hrun) Hat Hctx)
    as (s' & r & Hex & Hr & _).
  eauto.
Qed.

(** X10: while the main goroutine waits in [g.Wait()], a signal is
    always handled, and from there the run can be brought to its end,
    where [runRunCmd] returns the "halted" error. *)
Theorem signal_ends_waiting_run ls s :
  run' ls = Some s →
  at_ s = L130 →
  ∃ s1 s', step' s Signal = Some s1
           ∧ exec' s1 (finish_schedule s1) = Some s'
           ∧ returned s' = Some (Some halted).
Proof.
  intros Hrun Hat. pose proof (Inv_run _ _ Hrun) as HI.
  pose proof (Inv2_run _ _ Hrun) as HI2.
  pose proof (inv2_watching _ HI2) as Hw. rewrite Hat in Hw.
  assert (Hstep : ∃ s1, step' s Signal = Some s1 ∧ at_ s1 = L130
                        ∧ SignalReceived s1 = true ∧ rootCancelled s1 = true).
  { unfold step. rewrite Hat. simpl. unfold handleSignals.
    destruct (watcher s) eqn:Hwt; [done | |].
    - eexists. split; [reflexivity |]. simpl. done.
    - exists s. split; [reflexivity |]. split; [done |].
      assert (SignalReceived s = true) as Hs by (by apply (inv_signal _ HI)).
      split; [exact Hs | apply (inv_signal_cancel _ HI Hs)]. }
  destruct Hstep as (s1 & Hs1 & Hat1 & Hsig1 & Hroot1).
  pose proof (Inv_step _ _ _ HI Hs1) as HI1.
  pose proof (Inv2_step _ _ _ HI HI2 Hs1) as HI21.
  destruct (finish_waiting_run s1 HI1 HI21 Hat1) as (s' & r & Hex & Hr & Hh & _).
  { unfold ctx_Done. rewrite Hroot1. reflexivity. }
  exists s1, s'. split; [exact Hs1 |]. split; [exact Hex |].
  rewrite Hr, (Hh Hsig1). reflexivity.
Qed.

(** *** The final outcome *)

(** C1 as amended: take a run whose main goroutine stands at the test
    that follows the join ([s2]).  The join has returned some [j], the
    function returns, and what it returns is the "halted" error when
    [SignalReceived] is set at that test, whatever [j] is, and exactly
    [j] when it is not.  It is set at the test whenever it was set at
    an earlier moment of the run ([s1]), in particular when the join
    returned. *)
Theorem runRunCmd_final_outcome ls1 ls2 s1 s2 :
  run' ls1 = Some s1 →
  exec' s1 ls2 = Some s2 →
  at_ s2 = L131 →
  ∃ j s, joined (trace s2) = Some j
         ∧ step' s2 Main = Some s
         ∧ returned s = Some (if SignalReceived s2 then Some halted else j)
         ∧ (SignalReceived s1 = true → returned s = Some (Some halted)).
Proof.
  intros Hrun1 Hrun2 Hat.
  pose proof (exec_app _ _ _ _ _ Hrun1 Hrun2 : run' (ls1 ++ ls2) = Some s2) as Hrun.
  pose proof (Inv_run _ _ Hrun) as HI.
  pose proof (inv_joined _ HI) as Hj. rewrite Hat in Hj.
  destruct Hj as [j0 Hj0]. destruct (elem_joined _ _ Hj0) as [j Hj].
  destruct (inv_wait _ HI j (joined_elem _ _ Hj)) as [_ Hw].
  rewrite Hat in Hw.
  assert (Hflag : SignalReceived s1 = true → SignalReceived s2 = true).
  { intros H1.
    apply (exec_invariant (λ x, SignalReceived x = true)) with ls2 s1; auto.
    intros x l x' Hx Hstep. eapply SignalReceived_stays; eauto. }
  exists j. unfold step. rewrite Hat. simpl. unfold runRunCmd. rewrite Hat.
  destruct (SignalReceived s2) eqn:Hsig.
  - eexists. split; [exact Hj |]. split; [reflexivity |].
    split; [apply returned_return |]. intros _. apply returned_return.
  - eexists. split; [exact Hj |]. split; [reflexivity |].
    split; [rewrite returned_return, Hw; reflexivity |].
    intros H1. apply Hflag in H1. discriminate.
Qed.


(** *** The client and the errors of the tasks, against the trace *)

Local Abbreviation Inv3' := (@Inv3 w).

Lemma Inv3_init : Inv3' init.
Proof.
  split; simpl; try done.
  - intros u p o H. by apply elem_of_nil in H.
  - intros e [H | [H | H]]; discriminate.
Qed.

Lemma step3_client_new s l s' :
  Inv' s → Inv3' s → step' s l = Some s' →
  client s' = true →
  ∃ u p o, EvNewClient u p o ∈ trace s' ∧ NewClient w u p o = None.
Proof.
  intros HI HI3 Hs. pose proof (inv3_client_new _ HI3) as Hc.
  pose proof (inv_no_client _ HI) as Hn. clear HI HI3.
  step_cases Hs; simpl in *; try congruence.
  all: try (intros Hcl; destruct (Hc Hcl) as (u & p & o & Hin & Hok);
            exists u, p, o; split; [| exact Hok];
            rewrite ?elem_of_app; auto; fail).
  intros _. do 3 eexists. split; [| eassumption].
  apply elem_of_app. right. apply list_elem_of_singleton. reflexivity.
Qed.

Lemma step3_new_client s l s' :
  Inv' s → Inv3' s → step' s l = Some s' →
  ∀ u p o, EvNewClient u p o ∈ trace s' → NewClient w u p o = None →
  client s' = true.
Proof.
  intros HI HI3 Hs. pose proof (inv3_new_client _ HI3) as Hc.
  pose proof (inv_newclient _ HI) as Hn.
  pose proof (inv_deferred _ HI) as Hd. pose proof (inv_exit _ HI) as Hx.
  clear HI HI3.
  step_cases Hs; simpl in *; try done.
  all: (assert (ret0 = None) as -> by (apply Hx; done));
    specialize (Hd eq_refl); subst df0.
  all: intros u p o Hin Hok; in_trace; try discriminate; eauto.
  all: try (injection Hin as -> -> ->; congruence).
  all: try (destruct (Hn u p o Hin) as (c' & [= <-] & _ & -> & -> & ->);
            congruence).
Qed.

Lemma step3_task_error s l s' :
  Inv' s → Inv2 s → Inv3' s → step' s l = Some s' →
  ∀ e, returned_by_task e s' → is_Some (gerr s').
Proof.
  intros HI HI2 HI3 Hs. pose proof (inv3_task_error _ HI3) as Hg.
  pose proof (inv2_no_geth _ HI2) as Hn.
  pose proof (inv_join_tasks _ HI) as Hj.
  clear HI HI2 HI3. unfold returned_by_task in *.
  step_cases Hs; simpl in *; try done; eauto.
  all: intros e' He'; eauto.
  all: try (apply (Hg e'); intuition congruence).
Qed.

Lemma Inv3_step s l s' :
  Inv' s → Inv2 s → Inv3' s → step' s l = Some s' → Inv3' s'.
Proof.
  intros HI HI2 HI3 Hs. split.
  - eapply step3_client_new; eauto.
  - eapply step3_new_client; eauto.
  - eapply step3_task_error; eauto.
Qed.

Lemma Inv3_run ls s : run' ls = Some s → Inv3' s.
Proof.
  intros Hr.
  cut (Inv' s ∧ Inv2 s ∧ Inv3' s); [tauto |].
  apply (exec_invariant (λ x, Inv' x ∧ Inv2 x ∧ Inv3' x)) with ls init; auto.
  - intros x l x' (H1 & H2 & H3) Hstep. split; [| split].
    + eapply Inv_step; eauto.
    + eapply Inv2_step; eauto.
    + eapply Inv3_step; eauto.
  - split; [apply Inv_init |]. split; [apply Inv2_init | apply Inv3_init].
Qed.

(** C6: when a call of [optimism.NewClient] has succeeded in the run,
    [client.Close()] has been called exactly once when [runRunCmd] has
    returned, by whichever return, and not before; when no call of
    [NewClient] has succeeded, [Close] is never called. *)
Theorem client_closed_exactly_once ls s :
  run' ls = Some s →
  (∀ u p o, EvNewClient u p o ∈ trace s → NewClient w u p o = None →
   closes (trace s)
   = match returned s with Some _ => 1%nat | None => 0%nat end)
  ∧ ((∀ u p o, EvNewClient u p o ∈ trace s → is_Some (NewClient w u p o)) →
     closes (trace s) = 0%nat).
Proof.
  intros Hrun. pose proof (Inv_run _ _ Hrun) as HI.
  pose proof (Inv3_run _ _ Hrun) as HI3.
  pose proof (inv_closes _ HI) as Hc. split.
  - intros u p o Hin Hok.
    rewrite (inv3_new_client _ HI3 u p o Hin Hok) in Hc. exact Hc.
  - intros Hall. destruct (client s) eqn:Hcl; [| exact Hc].
    destruct (inv3_client_new _ HI3 Hcl) as (u & p & o & Hin & Hok).
    destruct (Hall u p o Hin) as [e He]. congruence.
Qed.

(** *** The call of [server.Shutdown] *)

Lemma no_active_idle d conns :
  List.filter (λ c, d <? c)%nat conns = [] → (max_list conns ≤ d)%nat.
Proof.
  induction conns as [| c conns IH]; simpl; [lia |].
  destruct (d <? c)%nat eqn:Hc; [discriminate |].
  apply Nat.ltb_ge in Hc. intros H. specialize (IH H). lia.
Qed.

Lemma map_sub_0 (l : list nat) : List.map (λ c, c - 0)%nat l = l.
Proof.
  induction l as [| c l IH]; simpl; [reflexivity |].
  rewrite IH, Nat.sub_0_r. reflexivity.
Qed.

(** With a context that is already done there is nothing to wait for. *)
Lemma Shutdown_done lnerr conns :
  Shutdown {| Done := true; Deadline := None |} lnerr conns
  = {| shErr := match List.filter (λ c, 0 <? c)%nat conns with
                | [] => lnerr
                | _ => Some Canceled
                end;
       shWaited := 0;
       shOpen := List.filter (λ c, 0 <? c)%nat conns |}.
Proof.
  unfold Shutdown. simpl.
  destruct (List.filter (λ c, 0 <? c)%nat conns) as [| c rest] eqn:Hf.
  - apply no_active_idle in Hf. f_equal. lia.
  - simpl. rewrite map_sub_0, Nat.sub_0_r. reflexivity.
Qed.

(** C2 as amended: the shutdown task calls [server.Shutdown] behind
    [<-ctx.Done()], once, with the group's context, which is done at the
    call and has no deadline.  By the contract of [Shutdown] there is
    then no drain window: it returns without waiting, the error of
    closing the listeners when no request is in flight and
    [context.Canceled] otherwise, and the requests in flight stay open.
    Whatever [Shutdown] returns, the task returns to the group, where it
    becomes [g.err] if no task has failed before. *)
Theorem Shutdown_without_drain ls s s1 lnerr conns :
  run' ls = Some s →
  step' s CtxDone = Some s1 →
  group_ctx s = {| Done := true; Deadline := None |}
  ∧ trace s1 = trace s ++ [EvShutdown true]
  ∧ shutdowns (trace s1) = 1%nat
  ∧ Shutdown (group_ctx s) lnerr conns
    = {| shErr := match List.filter (λ c, 0 <? c)%nat conns with
                  | [] => lnerr
                  | _ => Some Canceled
                  end;
         shWaited := 0;
         shOpen := List.filter (λ c, 0 <? c)%nat conns |}
  ∧ ∀ r, ∃ s2, step' s1 (ShutdownReturns r) = Some s2
               ∧ shutdown s2 = Returned r
               ∧ gerr s2 = match gerr s1 with Some e => Some e | None => r end.
Proof.
  intros Hrun Hs.
  assert (Hrun1 : run' (ls ++ [CtxDone]) = Some s1).
  { apply (exec_app ls [CtxDone] init s s1 Hrun). simpl. rewrite Hs. reflexivity. }
  pose proof (Inv2_run _ _ Hrun1) as HI21.
  apply step_move in Hs as [Hne Hs]. simpl in Hs.
  destruct (shutdown s) eqn:Hsh; try discriminate.
  destruct (ctx_Done s && negb (inShutdown s)) eqn:Hc; [| discriminate].
  apply andb_prop in Hc as [Hc Hin]. injection Hs as <-.
  assert (Hctx : group_ctx s = {| Done := true; Deadline := None |})
    by (unfold group_ctx; rewrite Hc; reflexivity).
  split; [exact Hctx |].
  split; [destruct s; simpl in *; rewrite Hc; reflexivity |].
  split; [rewrite (inv2_shutdowns _ HI21); destruct s; reflexivity |].
  split; [rewrite Hctx; apply Shutdown_done |].
  intros r. unfold step, move.
  destruct s as [pc0 cfg0 err0 srv0 cl0 df0 sig0 wt0 rc0 gc0 ge0 g0 sv0 sh0 ins0 tr0 ret0].
  simpl in *. subst sh0. unfold task_returns.
  destruct pc0; try done; simpl;
    destruct r as [e |], ge0 as [e0 |]; simpl;
      (eexists; split; [reflexivity |]; split; reflexivity).
Qed.

(** X5: the shutdown task gets past [<-ctx.Done()] and calls
    [server.Shutdown] only when a signal has been received or the group
    has recorded the error of a task ([g.err] is not nil). *)
Theorem Shutdown_only_after_signal_or_failure ls s s' :
  run MainnetNetwork TestnetNetwork w ls = Some s →
  step MainnetNetwork TestnetNetwork w s CtxDone = Some s' →
  SignalReceived s = true ∨ is_Some (gerr s).
Proof.
  intros Hrun Hs. pose proof (Inv2_run _ _ Hrun) as HI2.
  apply step_move in Hs as [_ Hs]. simpl in Hs.
  destruct (shutdown s) eqn:Hsh; try discriminate.
  destruct (ctx_Done s && negb (inShutdown s)) eqn:Hc; [| discriminate].
  apply andb_prop in Hc as [Hc _]. unfold ctx_Done in Hc.
  apply orb_prop in Hc as [Hr | Hg].
  - left. apply (inv2_root _ HI2 Hr).
  - right. apply (inv2_group _ HI2 Hg).
Qed.

Lemma first_error_recorded s l s' e :
  step' s l = Some s' →
  label_error l = Some e →
  gerr s = None →
  gerr s' = Some e ∧ groupCancelled s' = true.
Proof.
  intros Hs. step_cases Hs; simpl; try done.
  all: intros [= <-]; try done.
Qed.

Lemma no_task_error_gerr s : Inv2 s → no_task_error s → gerr s = None.
Proof.
  intros HI2 Hno. destruct (gerr s) as [e |] eqn:He; [| reflexivity].
  destruct (Hno e). apply (inv2_gerr_task _ HI2 e He).
Qed.

(** X6: when a task returns an error and no task has returned one
    before, that error is the value [g.Wait()] returns, whatever the
    tasks return afterwards, and, when no signal was received, the
    result of [runRunCmd]. *)
Theorem join_returns_first_error ls1 s1 l e s1' ls2 s j :
  run' ls1 = Some s1 →
  no_task_error s1 →
  label_error l = Some e →
  step' s1 l = Some s1' →
  exec' s1' ls2 = Some s →
  joined (trace s) = Some j →
  j = Some e
  ∧ ∀ r, returned s = Some r → SignalReceived s = false → r = Some e.
Proof.
  intros Hrun1 Hno Hl Hs Hrun2 Hj.
  assert (Hrun : run' (ls1 ++ l :: ls2) = Some s).
  { apply (exec_app ls1 (l :: ls2) init s1 s Hrun1). simpl. rewrite Hs. exact Hrun2. }
  pose proof (Inv_run _ _ Hrun) as HI. pose proof (Inv2_run _ _ Hrun) as HI2.
  pose proof (no_task_error_gerr _ (Inv2_run _ _ Hrun1) Hno) as Hnone.
  destruct (first_error_recorded _ _ _ _ Hs Hl Hnone) as [He _].
  assert (Hge : gerr s = Some e).
  { apply (exec_invariant (λ x, gerr x = Some e)) with ls2 s1'; auto.
    intros x l' x' Hx Hstep. eapply gerr_stays; eauto. }
  pose proof (joined_elem _ _ Hj) as Hin.
  assert (Hje : j = Some e).
  { rewrite <- (inv2_joined_gerr _ HI2 j Hin). exact Hge. }
  split; [exact Hje |].
  intros r Hr Hsig.
  destruct (inv_wait _ HI j Hin) as [_ Hw].
  rewrite (returned_Exited _ _ HI Hr), Hr, Hsig in Hw. congruence.
Qed.

(** X12: once any task of the group has returned an error, the group
    has recorded an error and its context is done, so a run waiting in
    [g.Wait()] can be brought to its end; without a signal [runRunCmd]
    then returns the recorded error. *)
Theorem task_failure_ends_run ls s e :
  run' ls = Some s →
  at_ s = L130 →
  returned_by_task e s →
  is_Some (gerr s)
  ∧ ctx_Done s = true
  ∧ ∃ s' r, exec' s (finish_schedule s) = Some s'
            ∧ returned s' = Some r
            ∧ (SignalReceived s = false → r = gerr s).
Proof.
  intros Hrun Hat He. pose proof (Inv2_run _ _ Hrun) as HI2.
  pose proof (inv3_task_error _ (Inv3_run _ _ Hrun) e He) as Hg.
  assert (Hctx : ctx_Done s = true).
  { unfold ctx_Done. rewrite (inv2_gerr_cancel _ HI2 Hg). apply orb_true_r. }
  split; [exact Hg |]. split; [exact Hctx |].
  destruct (finish_waiting_run s (Inv_run _ _ Hrun) HI2 Hat Hctx)
    as (s' & r & Hex & Hr & _ & Hn).
  exists s', r. split; [exact Hex |]. split; [exact Hr |].
  intros Hsig. destruct Hg as [e0 He0]. rewrite He0. apply (Hn Hsig e0 He0).
Qed.

End Supervisor.

(** ** The properties on concrete runs *)

Lemma run_final w ls :
  is_run w ls = true → run mainnet testnet w ls = Some (final w ls).
Proof.
  unfold is_run, final. destruct (run mainnet testnet w ls); [reflexivity | discriminate].
Qed.

Lemma is_NewClient_elem tr :
  existsb is_NewClient tr = true → ∃ u p o, EvNewClient u p o ∈ tr.
Proof.
  induction tr as [| e tr IH]; simpl; [discriminate |].
  intros H. apply orb_prop in H as [H | H].
  - destruct e; try discriminate. do 3 eexists. apply elem_of_cons. by left.
  - destruct (IH H) as (u & p & o & Hin).
    exists u, p, o. apply elem_of_cons. by right.
Qed.

Ltac run_ok := apply run_final; vm_compute; reflexivity.
Ltac by_eval := vm_compute; reflexivity.

Example no_config_returns :
  returned (final world_no_config [Main])
  = Some (Some (Wrap (New "MODE must be populated") "unable to load configuration")).
Proof. by_eval. Qed.

Example no_asserter_returns :
  returned (final (world_no_asserter cfg_offline) [Main; Main])
  = Some (Some (Wrap (New "no supported networks")
                  "could not initialize server asserter")).
Proof. by_eval. Qed.

Example online_geth_fails_returns :
  returned s_online_geth_fails = Some (Some (New "geth exited"))
  ∧ SignalReceived s_online_geth_fails = false.
Proof. split; by_eval. Qed.

Example online_signal_halts :
  is_run (world_ok (cfg_online false)) sched_online_signal = true
  ∧ returned (final (world_ok (cfg_online false)) sched_online_signal)
    = Some (Some halted)
  ∧ closes (trace (final (world_ok (cfg_online false)) sched_online_signal))
    = 1%nat.
Proof. repeat split; by_eval. Qed.

(** A signal before the watcher is started is not handled by the
    program, and nothing moves after the return. *)
Example early_signal_is_no_run :
  is_run (world_ok cfg_offline) [Main; Signal] = false
  ∧ is_run world_no_config [Main; Main] = false.
Proof. split; by_eval. Qed.

(** Offline with a signal: the join does not return nil; it returns the
    serve task's [http.ErrServerClosed]. *)
Lemma offline_signal_join_not_nil :
  Mode cfg_offline = Offline
  ∧ Signal ∈ sched_offline_signal
  ∧ run mainnet testnet (world_ok cfg_offline) sched_offline_signal
    = Some s_offline_signal
  ∧ geth s_offline_signal = NotStarted
  ∧ client s_offline_signal = false
  ∧ SignalReceived s_offline_signal = true
  ∧ returned s_offline_signal = Some (Some halted)
  ∧ joined (trace s_offline_signal) = Some (Some ErrServerClosed)
  ∧ joined (trace s_offline_signal) ≠ Some None.
Proof.
  split; [reflexivity |].
  split; [unfold sched_offline_signal; repeat constructor |].
  split; [run_ok |].
  repeat (split; [by_eval |]).
  vm_compute. discriminate.
Qed.

Lemma offline_signal_halted_witness :
  LoadConfiguration (world_ok cfg_offline) = Ok cfg_offline
  ∧ Mode cfg_offline = Offline
  ∧ run mainnet testnet (world_ok cfg_offline) sched_offline_signal
    = Some s_offline_signal
  ∧ Signal ∈ sched_offline_signal
  ∧ returned s_offline_signal = Some (Some halted)
  ∧ (∃ e, joined (trace s_offline_signal) = Some (Some e))
  ∧ SignalReceived s_offline_signal = true.
Proof.
  assert (Hin : Signal ∈ sched_offline_signal)
    by (unfold sched_offline_signal; repeat constructor).
  split; [reflexivity |]. split; [reflexivity |].
  split; [run_ok |]. split; [exact Hin |]. split; [by_eval |].
  destruct (offline_signal_halted mainnet testnet (world_ok cfg_offline)
              cfg_offline sched_offline_signal s_offline_signal (Some halted))
    as (Hj & Hf & _);
    [reflexivity | reflexivity | run_ok | exact Hin | by_eval |].
  split; [exact Hj | exact Hf].
Defined.

(** The server is closed by the paired shutdown task only (no failure of
    [ListenAndServe] is scheduled), and the serve task still returns a
    non-nil error, which becomes the group's error. *)
Lemma serve_closed_by_shutdown_not_nil :
  run mainnet testnet (world_ok cfg_offline) sched_offline_signal
  = Some s_offline_signal
  ∧ (∀ e, ServeFails e ∉ sched_offline_signal)
  ∧ trace s_offline_signal !! 3%nat = Some (EvShutdown true)
  ∧ shutdown s_offline_signal = Returned None
  ∧ serve s_offline_signal = Returned (Some ErrServerClosed)
  ∧ gerr s_offline_signal = Some ErrServerClosed.
Proof.
  split; [run_ok |].
  split.
  { intros e Hin. unfold sched_offline_signal in Hin.
    repeat (apply elem_of_cons in Hin as [Hin | Hin]; [discriminate |]).
    by apply elem_of_nil in Hin. }
  repeat (split; [by_eval |]).
  by_eval.
Qed.

Lemma serve_task_result_witness :
  run mainnet testnet (world_ok cfg_offline) sched_offline_signal
  = Some s_offline_signal
  ∧ serve s_offline_signal = Returned (Some ErrServerClosed)
  ∧ is_Some (gerr s_offline_signal).
Proof.
  split; [run_ok |]. split; [by_eval |].
  apply (serve_task_result mainnet testnet (world_ok cfg_offline)
           sched_offline_signal s_offline_signal (Some ErrServerClosed));
    [run_ok | by_eval].
Defined.

(** Online with an embedded node: [NewClient] fails after the node task
    was registered and started. *)
Lemma client_failure_after_geth_started :
  Mode (cfg_online false) = Online
  ∧ NewClient (world_no_client (cfg_online false))
      (GethURL (cfg_online false)) (Params (cfg_online false))
      (mkOpts mainnet testnet (cfg_online false))
    = Some (New "dial failed")
  ∧ run mainnet testnet (world_no_client (cfg_online false)) sched_to_client
    = Some s_no_client
  ∧ returned s_no_client
    = Some (Some (Wrap (New "dial failed") "cannot initialize ethereum client"))
  ∧ geth s_no_client = Running
  ∧ trace s_no_client !! 1%nat = Some (EvGo GethTask).
Proof.
  split; [reflexivity |]. split; [reflexivity |].
  split; [run_ok |].
  repeat (split; [by_eval |]).
  by_eval.
Qed.

Lemma fatal_errors_before_tasks_witness :
  LoadConfiguration (world_no_client (cfg_online false)) = Ok (cfg_online false)
  ∧ NewServer (world_no_client (cfg_online false))
      [cNetwork (cfg_online false)] = None
  ∧ Mode (cfg_online false) = Online
  ∧ NewClient (world_no_client (cfg_online false))
      (GethURL (cfg_online false)) (Params (cfg_online false))
      (mkOpts mainnet testnet (cfg_online false))
    = Some (New "dial failed")
  ∧ run mainnet testnet (world_no_client (cfg_online false)) sched_to_client
    = Some s_no_client
  ∧ serve s_no_client = NotStarted
  ∧ shutdown s_no_client = NotStarted
  ∧ closes (trace s_no_client) = 0%nat.
Proof.
  split; [reflexivity |]. split; [reflexivity |].
  split; [reflexivity |]. split; [reflexivity |].
  split; [run_ok |].
  destruct (fatal_errors_before_tasks mainnet testnet
              (world_no_client (cfg_online false))) as (_ & _ & H).
  destruct (H (cfg_online false) (New "dial failed")
              eq_refl eq_refl eq_refl eq_refl) as [_ Hsafe].
  destruct (Hsafe sched_to_client s_no_client
              (Some (Wrap (New "dial failed") "cannot initialize ethereum client")))
    as (_ & Hsv & Hsh & _ & Hcl); [run_ok | by_eval |].
  split; [exact Hsv |]. split; [exact Hsh | exact Hcl].
Defined.

(** Online on a remote geth: the client is constructed all the same. *)
Lemma client_built_on_remote_geth :
  Mode (cfg_online true) = Online
  ∧ RemoteGeth (cfg_online true) = true
  ∧ run mainnet testnet (world_ok (cfg_online true)) sched_to_client
    = Some s_remote_geth
  ∧ geth s_remote_geth = NotStarted
  ∧ client s_remote_geth = true
  ∧ ∃ u p o, EvNewClient u p o ∈ trace s_remote_geth.
Proof.
  split; [reflexivity |]. split; [reflexivity |].
  split; [run_ok |].
  repeat (split; [by_eval |]).
  apply is_NewClient_elem. by_eval.
Qed.

Lemma online_only_witness :
  run mainnet testnet (world_ok (cfg_online true)) sched_to_client
  = Some s_remote_geth
  ∧ LoadConfiguration (world_ok (cfg_online true)) = Ok (cfg_online true)
  ∧ client s_remote_geth = true
  ∧ Mode (cfg_online true) = Online.
Proof.
  split; [run_ok |]. split; [reflexivity |]. split; [by_eval |].
  destruct (online_only mainnet testnet (world_ok (cfg_online true))
              sched_to_client s_remote_geth (cfg_online true))
    as (_ & Hc & _); [run_ok | reflexivity |].
  apply Hc. by_eval.
Defined.

Lemma server_timeouts_witness :
  run mainnet testnet (world_ok cfg_offline) sched_offline_signal
  = Some s_offline_signal
  ∧ server s_offline_signal = Some (mkServer cfg_offline)
  ∧ ∃ c, LoadConfiguration (world_ok cfg_offline) = Ok c
         ∧ ReadTimeout (mkServer cfg_offline) = 5 * Second
         ∧ IdleTimeout (mkServer cfg_offline) = 30 * Second
         ∧ WriteTimeout (mkServer cfg_offline) = L2GethHTTPTimeout c
         ∧ Addr (mkServer cfg_offline) = ":" +:+ pretty (Port c).
Proof.
  split; [run_ok |]. split; [by_eval |].
  destruct (server_timeouts mainnet testnet (world_ok cfg_offline)
              sched_offline_signal s_offline_signal) as [_ H]; [run_ok |].
  apply H. by_eval.
Defined.

(** ** The two token tables side by side *)

Section TokenTables.

Variable MainnetNetwork : string.
Variable TestnetNetwork : string.

Local Abbreviation tokens := (getSupportedTokens MainnetNetwork TestnetNetwork).

(** X11: when the test network's name differs from the production
    network's, its table has exactly 6 entries too, and the addresses
    supported on both networks are exactly OP and DAI. *)
Theorem testnet_table addr :
  TestnetNetwork ≠ MainnetNetwork →
  size (tokens TestnetNetwork) = 6%nat
  ∧ ((tokens MainnetNetwork !! addr = Some true
      ∧ tokens TestnetNetwork !! addr = Some true)
     ↔ (addr = OP ∨ addr = DAI)).
Proof.
  intros Hne. unfold getSupportedTokens.
  rewrite (decide_True (P := MainnetNetwork = MainnetNetwork)) by done.
  rewrite (decide_False (P := TestnetNetwork = MainnetNetwork)) by done.
  rewrite (decide_True (P := TestnetNetwork = TestnetNetwork)) by done.
  split; [vm_compute; reflexivity |].
  split.
  - intros [Hm Ht].
    repeat (apply lookup_insert_Some in Hm as [[<- _] | [_ Hm]];
            [first [left; reflexivity | right; reflexivity
                   | vm_compute in Ht; discriminate Ht] |]).
    rewrite lookup_empty in Hm. discriminate.
  - intros [-> | ->]; split; vm_compute; reflexivity.
Qed.

End TokenTables.

Lemma testnet_table_witness :
  testnet ≠ mainnet
  ∧ size (getSupportedTokens mainnet testnet testnet) = 6%nat.
Proof.
  split; [discriminate |].
  apply (testnet_table mainnet testnet OP). discriminate.
Defined.

(** ** The further properties on concrete runs *)

Lemma runRunCmd_never_nil_witness :
  run mainnet testnet (world_ok (cfg_online false)) sched_online_geth_fails
  = Some s_online_geth_fails
  ∧ returned s_online_geth_fails = Some (Some (New "geth exited"))
  ∧ is_Some (Some (New "geth exited")).
Proof.
  split; [run_ok |]. split; [by_eval |].
  apply (runRunCmd_never_nil mainnet testnet (world_ok (cfg_online false))
           sched_online_geth_fails s_online_geth_fails);
    [run_ok | by_eval].
Defined.

Lemma NewClient_once_from_cfg_witness :
  run mainnet testnet (world_ok (cfg_online false)) sched_online_geth_fails
  = Some s_online_geth_fails
  ∧ news (trace s_online_geth_fails) = 1%nat
  ∧ (news (trace s_online_geth_fails) ≤ 1)%nat.
Proof.
  split; [run_ok |]. split; [by_eval |].
  apply (NewClient_once_from_cfg mainnet testnet (world_ok (cfg_online false))
           sched_online_geth_fails s_online_geth_fails).
  run_ok.
Defined.

Lemma server_and_client_timeouts_agree_witness :
  run mainnet testnet (world_ok (cfg_online false)) sched_online_geth_fails
  = Some s_online_geth_fails
  ∧ server s_online_geth_fails = Some (mkServer (cfg_online false))
  ∧ ∃ u p o, EvNewClient u p o ∈ trace s_online_geth_fails
             ∧ WriteTimeout (mkServer (cfg_online false)) = HTTPTimeout o.
Proof.
  split; [run_ok |]. split; [by_eval |].
  destruct (is_NewClient_elem (trace s_online_geth_fails)) as (u & p & o & Hin);
    [by_eval |].
  exists u, p, o. split; [exact Hin |].
  apply (server_and_client_timeouts_agree mainnet testnet
           (world_ok (cfg_online false)) sched_online_geth_fails
           s_online_geth_fails (mkServer (cfg_online false)) u p o);
    [run_ok | by_eval | exact Hin].
Defined.

Lemma join_waits_for_all_tasks_witness :
  run mainnet testnet (world_ok cfg_offline) sched_offline_signal
  = Some s_offline_signal
  ∧ joined (trace s_offline_signal) = Some (Some ErrServerClosed)
  ∧ shutdowns (trace s_offline_signal) = 1%nat
  ∧ gerr s_offline_signal = Some ErrServerClosed.
Proof.
  split; [run_ok |]. split; [by_eval |].
  destruct (join_waits_for_all_tasks mainnet testnet (world_ok cfg_offline)
              sched_offline_signal s_offline_signal (Some ErrServerClosed))
    as (_ & _ & _ & Hn & Hg); [run_ok | by_eval |].
  split; [exact Hn | exact Hg].
Defined.

Lemma Close_only_after_join_witness :
  run mainnet testnet (world_ok (cfg_online false)) sched_online_geth_fails
  = Some s_online_geth_fails
  ∧ (0 < closes (trace s_online_geth_fails))%nat
  ∧ all_finished s_online_geth_fails = true.
Proof.
  assert (Hc : (0 < closes (trace s_online_geth_fails))%nat)
    by (vm_compute; repeat constructor).
  split; [run_ok |]. split; [exact Hc |].
  apply (Close_only_after_join mainnet testnet (world_ok (cfg_online false))
           sched_online_geth_fails s_online_geth_fails);
    [run_ok | exact Hc].
Defined.

Lemma watcher_started_first_witness :
  run mainnet testnet (world_ok (cfg_online false)) [Main; Main]
  = Some (final (world_ok (cfg_online false)) [Main; Main])
  ∧ watcher (final (world_ok (cfg_online false)) [Main; Main]) = NoWatcher
  ∧ client (final (world_ok (cfg_online false)) [Main; Main]) = false.
Proof.
  split; [run_ok |]. split; [by_eval |].
  apply (watcher_started_first mainnet testnet (world_ok (cfg_online false))
           [Main; Main] (final (world_ok (cfg_online false)) [Main; Main]));
    [run_ok | by_eval].
Defined.

Lemma cancelled_run_can_finish_witness :
  run mainnet testnet (world_ok cfg_offline) (sched_offline_waiting ++ [Signal])
  = Some s_offline_cancelled
  ∧ at_ s_offline_cancelled = L130
  ∧ ctx_Done s_offline_cancelled = true
  ∧ ∃ s' r, exec mainnet testnet (world_ok cfg_offline) s_offline_cancelled
              (finish_schedule s_offline_cancelled) = Some s'
            ∧ returned s' = Some r.
Proof.
  split; [run_ok |]. split; [by_eval |]. split; [by_eval |].
  apply (cancelled_run_can_finish mainnet testnet (world_ok cfg_offline)
           (sched_offline_waiting ++ [Signal]) s_offline_cancelled);
    [run_ok | by_eval | by_eval].
Defined.

Lemma signal_ends_waiting_run_witness :
  run mainnet testnet (world_ok cfg_offline) sched_offline_waiting
  = Some s_offline_waiting
  ∧ at_ s_offline_waiting = L130
  ∧ SignalReceived s_offline_waiting = false
  ∧ ∃ s1 s', step mainnet testnet (world_ok cfg_offline) s_offline_waiting Signal
             = Some s1
             ∧ exec mainnet testnet (world_ok cfg_offline) s1 (finish_schedule s1)
               = Some s'
             ∧ returned s' = Some (Some halted).
Proof.
  split; [run_ok |]. split; [by_eval |]. split; [by_eval |].
  apply (signal_ends_waiting_run mainnet testnet (world_ok cfg_offline)
           sched_offline_waiting s_offline_waiting);
    [run_ok | by_eval].
Defined.

(** ** The properties on concrete runs, continued *)

Lemma exec_after w s ls :
  can_exec w s ls = true → exec mainnet testnet w s ls = Some (after w s ls).
Proof.
  unfold can_exec, after.
  destruct (exec mainnet testnet w s ls); [reflexivity | discriminate].
Qed.

Lemma step_after w s l :
  can_exec w s [l] = true → step mainnet testnet w s l = Some (after w s [l]).
Proof.
  unfold can_exec, after. simpl.
  destruct (step mainnet testnet w s l); [reflexivity | discriminate].
Qed.

Ltac exec_ok := apply exec_after; vm_compute; reflexivity.
Ltac step_ok := apply step_after; vm_compute; reflexivity.

(** The join returns the bind error with [SignalReceived] not set; a
    signal arrives before the test, and [runRunCmd] returns the "halted"
    error, not the join's error. *)
Lemma signal_between_join_and_test :
  run mainnet testnet (world_ok cfg_offline) sched_offline_bind_joined
  = Some s_offline_bind_joined
  ∧ at_ s_offline_bind_joined = L131
  ∧ SignalReceived s_offline_bind_joined = false
  ∧ joined (trace s_offline_bind_joined)
    = Some (Some (New "listen tcp :8080: bind: address already in use"))
  ∧ exec mainnet testnet (world_ok cfg_offline) s_offline_bind_joined
      [Signal; Main]
    = Some s_offline_bind_late_signal
  ∧ returned s_offline_bind_late_signal = Some (Some halted)
  ∧ returned s_offline_bind_late_signal
    ≠ Some (Some (New "listen tcp :8080: bind: address already in use")).
Proof.
  split; [run_ok |].
  repeat (split; [by_eval |]).
  vm_compute. discriminate.
Qed.

Lemma runRunCmd_final_outcome_witness :
  run mainnet testnet (world_ok cfg_offline) (sched_offline_waiting ++ [Signal])
  = Some s_offline_cancelled
  ∧ exec mainnet testnet (world_ok cfg_offline) s_offline_cancelled
      [CtxDone; ShutdownReturns None; ServeClosed; Main]
    = Some s_offline_joined
  ∧ at_ s_offline_joined = L131
  ∧ SignalReceived s_offline_cancelled = true
  ∧ ∃ j s, joined (trace s_offline_joined) = Some j
           ∧ step mainnet testnet (world_ok cfg_offline) s_offline_joined Main
             = Some s
           ∧ returned s
             = Some (if SignalReceived s_offline_joined then Some halted else j)
           ∧ (SignalReceived s_offline_cancelled = true →
              returned s = Some (Some halted)).
Proof.
  split; [run_ok |]. split; [by_eval |]. split; [by_eval |].
  split; [by_eval |].
  apply (runRunCmd_final_outcome mainnet testnet (world_ok cfg_offline)
           (sched_offline_waiting ++ [Signal])
           [CtxDone; ShutdownReturns None; ServeClosed; Main]
           s_offline_cancelled s_offline_joined);
    [run_ok | by_eval | by_eval].
Defined.

(** The three returns behind a successful [NewClient] (a failed task, a
    signal) and a run without a client. *)
Lemma client_closed_exactly_once_witness :
  (run mainnet testnet (world_ok (cfg_online false)) sched_online_signal
   = Some s_online_signal
   ∧ returned s_online_signal = Some (Some halted)
   ∧ closes (trace s_online_signal) = 1%nat)
  ∧ (run mainnet testnet (world_ok (cfg_online false)) sched_online_geth_fails
     = Some s_online_geth_fails
     ∧ returned s_online_geth_fails = Some (Some (New "geth exited"))
     ∧ closes (trace s_online_geth_fails) = 1%nat)
  ∧ (run mainnet testnet (world_ok (cfg_online false)) sched_online_waiting
     = Some s_online_waiting
     ∧ returned s_online_waiting = None
     ∧ closes (trace s_online_waiting) = 0%nat)
  ∧ (run mainnet testnet (world_ok cfg_offline) sched_offline_signal
     = Some s_offline_signal
     ∧ closes (trace s_offline_signal) = 0%nat).
Proof.
  assert (Hclosed : ∀ ls,
            is_run (world_ok (cfg_online false)) ls = true →
            existsb is_NewClient (trace (final (world_ok (cfg_online false)) ls)) = true →
            closes (trace (final (world_ok (cfg_online false)) ls))
            = match returned (final (world_ok (cfg_online false)) ls) with
              | Some _ => 1%nat
              | None => 0%nat
              end).
  { intros ls Hrun Hnew.
    destruct (is_NewClient_elem _ Hnew) as (u & p & o & Hin).
    destruct (client_closed_exactly_once mainnet testnet
                (world_ok (cfg_online false)) ls
                (final (world_ok (cfg_online false)) ls)) as [H _];
      [apply run_final, Hrun |].
    apply (H u p o Hin). reflexivity. }
  split; [| split; [| split]].
  - split; [run_ok |]. split; [by_eval |].
    unfold s_online_signal. rewrite Hclosed; by_eval.
  - split; [run_ok |]. split; [by_eval |].
    unfold s_online_geth_fails. rewrite Hclosed; by_eval.
  - split; [run_ok |]. split; [by_eval |].
    unfold s_online_waiting. rewrite Hclosed; by_eval.
  - split; [run_ok |].
    destruct (client_closed_exactly_once mainnet testnet (world_ok cfg_offline)
                sched_offline_signal s_offline_signal) as [_ H]; [run_ok |].
    apply H. intros u p o Hin. exfalso. revert Hin.
    replace (trace s_offline_signal)
      with [EvGoHandleSignals; EvGo ServeTask; EvGo ShutdownTask;
            EvShutdown true; EvWait (Some ErrServerClosed)] by by_eval.
    intros Hin.
    repeat (apply elem_of_cons in Hin as [Hin | Hin]; [discriminate |]).
    by apply elem_of_nil in Hin.
Defined.

(** The context handed to [Shutdown] is done: with one request in
    flight that needs 5 more ticks, [Shutdown] returns at once with
    [context.Canceled] and the request still in flight, where a context
    that is not done and has no deadline would have it wait the 5 ticks
    and return nil. *)
Lemma Shutdown_does_not_drain :
  run mainnet testnet (world_ok cfg_offline) (sched_offline_waiting ++ [Signal])
  = Some s_offline_cancelled
  ∧ step mainnet testnet (world_ok cfg_offline) s_offline_cancelled CtxDone
    = Some s_offline_shutting_down
  ∧ Deadline (group_ctx s_offline_cancelled) = None
  ∧ Shutdown (group_ctx s_offline_cancelled) None [5%nat]
    = {| shErr := Some Canceled; shWaited := 0; shOpen := [5%nat] |}
  ∧ Shutdown {| Done := false; Deadline := None |} None [5%nat]
    = {| shErr := None; shWaited := 5; shOpen := [] |}
  ∧ shWaited (Shutdown (group_ctx s_offline_cancelled) None [5%nat]) ≠ 5%nat.
Proof.
  split; [run_ok |].
  repeat (split; [by_eval |]).
  vm_compute. discriminate.
Qed.

Lemma Shutdown_without_drain_witness :
  run mainnet testnet (world_ok cfg_offline) (sched_offline_waiting ++ [Signal])
  = Some s_offline_cancelled
  ∧ step mainnet testnet (world_ok cfg_offline) s_offline_cancelled CtxDone
    = Some s_offline_shutting_down
  ∧ group_ctx s_offline_cancelled = {| Done := true; Deadline := None |}
  ∧ shutdowns (trace s_offline_shutting_down) = 1%nat.
Proof.
  split; [run_ok |]. split; [by_eval |].
  destruct (Shutdown_without_drain mainnet testnet (world_ok cfg_offline)
              (sched_offline_waiting ++ [Signal])
              s_offline_cancelled s_offline_shutting_down None [5%nat])
    as (Hctx & _ & Hn & _); [run_ok | by_eval |].
  split; [exact Hctx | exact Hn].
Defined.

Lemma Shutdown_only_after_signal_or_failure_witness :
  run mainnet testnet (world_ok cfg_offline) sched_offline_bind_failed
  = Some s_offline_bind_failed
  ∧ step mainnet testnet (world_ok cfg_offline) s_offline_bind_failed CtxDone
    = Some (after (world_ok cfg_offline) s_offline_bind_failed [CtxDone])
  ∧ SignalReceived s_offline_bind_failed = false
  ∧ (SignalReceived s_offline_bind_failed = true
     ∨ is_Some (gerr s_offline_bind_failed)).
Proof.
  split; [run_ok |]. split; [by_eval |]. split; [by_eval |].
  apply (Shutdown_only_after_signal_or_failure mainnet testnet
           (world_ok cfg_offline) sched_offline_bind_failed
           s_offline_bind_failed
           (after (world_ok cfg_offline) s_offline_bind_failed [CtxDone]));
    [run_ok | by_eval].
Defined.

Lemma no_task_error_waiting (s : state) :
  finished (geth s) = false ∨ geth s = NotStarted →
  serve s = Running → shutdown s = Running → no_task_error s.
Proof.
  intros Hg Hsv Hsh e [H | [H | H]]; try congruence.
  destruct Hg as [Hg | Hg]; rewrite H in Hg; discriminate.
Qed.

(** The error of the shutdown task comes first and is the join's
    result; the error of the embedded node comes first and, without a
    signal, is the result of [runRunCmd]. *)
Lemma join_returns_first_error_witness :
  (run mainnet testnet (world_ok cfg_offline)
     (sched_offline_waiting ++ [Signal; CtxDone])
   = Some s_offline_shutting_down
   ∧ no_task_error s_offline_shutting_down
   ∧ step mainnet testnet (world_ok cfg_offline) s_offline_shutting_down
       (ShutdownReturns (Some Canceled))
     = Some s_offline_shutdown_canceled
   ∧ exec mainnet testnet (world_ok cfg_offline) s_offline_shutdown_canceled
       [ServeClosed; Main; Main]
     = Some s_offline_canceled_first
   ∧ joined (trace s_offline_canceled_first) = Some (Some Canceled)
   ∧ Some Canceled = Some Canceled)
  ∧ (run mainnet testnet (world_ok (cfg_online false)) sched_online_waiting
     = Some s_online_waiting
     ∧ no_task_error s_online_waiting
     ∧ can_exec (world_ok (cfg_online false)) s_online_waiting
         [GethReturns (Some (New "geth exited")); CtxDone; ServeClosed;
          ShutdownReturns (Some Canceled); Main; Main]
       = true
     ∧ returned (after (world_ok (cfg_online false))
                   (after (world_ok (cfg_online false)) s_online_waiting
                      [GethReturns (Some (New "geth exited"))])
                   [CtxDone; ServeClosed; ShutdownReturns (Some Canceled);
                    Main; Main])
       = Some (Some (New "geth exited"))
     ∧ SignalReceived
         (after (world_ok (cfg_online false))
            (after (world_ok (cfg_online false)) s_online_waiting
               [GethReturns (Some (New "geth exited"))])
            [CtxDone; ServeClosed; ShutdownReturns (Some Canceled);
             Main; Main])
       = false
     ∧ Some (New "geth exited") = Some (New "geth exited")).
Proof.
  assert (Hno1 : no_task_error s_offline_shutting_down)
    by (apply no_task_error_waiting; [right | |]; by_eval).
  assert (Hno2 : no_task_error s_online_waiting)
    by (apply no_task_error_waiting; [left | |]; by_eval).
  split.
  - split; [run_ok |]. split; [exact Hno1 |]. split; [by_eval |].
    split; [by_eval |]. split; [by_eval |].
    destruct (join_returns_first_error mainnet testnet (world_ok cfg_offline)
                (sched_offline_waiting ++ [Signal; CtxDone])
                s_offline_shutting_down (ShutdownReturns (Some Canceled))
                Canceled s_offline_shutdown_canceled
                [ServeClosed; Main; Main] s_offline_canceled_first
                (Some Canceled)) as [Hj _];
      [run_ok | exact Hno1 | reflexivity | by_eval | by_eval | by_eval |].
    exact Hj.
  - split; [run_ok |]. split; [exact Hno2 |]. split; [by_eval |].
    split; [by_eval |]. split; [by_eval |].
    destruct (join_returns_first_error mainnet testnet
                (world_ok (cfg_online false))
                sched_online_waiting s_online_waiting
                (GethReturns (Some (New "geth exited")))
                (New "geth exited")
                (after (world_ok (cfg_online false)) s_online_waiting
                   [GethReturns (Some (New "geth exited"))])
                [CtxDone; ServeClosed; ShutdownReturns (Some Canceled); Main; Main]
                (after (world_ok (cfg_online false))
                   (after (world_ok (cfg_online false)) s_online_waiting
                      [GethReturns (Some (New "geth exited"))])
                   [CtxDone; ServeClosed; ShutdownReturns (Some Canceled);
                    Main; Main])
                (Some (New "geth exited"))) as [_ Hr].
    + run_ok.
    + exact Hno2.
    + reflexivity.
    + step_ok.
    + apply (exec_after (world_ok (cfg_online false))
               (after (world_ok (cfg_online false)) s_online_waiting
                  [GethReturns (Some (New "geth exited"))])).
      vm_compute. reflexivity.
    + by_eval.
    + apply Hr; by_eval.
Defined.

Lemma task_failure_ends_run_witness :
  run mainnet testnet (world_ok (cfg_online false))
    (sched_online_waiting ++ [GethReturns (Some (New "geth exited"))])
  = Some s_online_geth_failed
  ∧ at_ s_online_geth_failed = L130
  ∧ returned_by_task (New "geth exited") s_online_geth_failed
  ∧ gerr s_online_geth_failed = Some (New "geth exited")
  ∧ ctx_Done s_online_geth_failed = true.
Proof.
  assert (He : returned_by_task (New "geth exited") s_online_geth_failed)
    by (left; by_eval).
  split; [run_ok |]. split; [by_eval |]. split; [exact He |].
  split; [by_eval |].
  apply (task_failure_ends_run mainnet testnet (world_ok (cfg_online false))
           (sched_online_waiting ++ [GethReturns (Some (New "geth exited"))])
           s_online_geth_failed (New "geth exited"));
    [run_ok | by_eval | exact He].
Defined.
